(** * Token passthrough gateway: validator, backend client, orchestrator

    Shallow embedding of
      - [token_validator.py]   ([validate_token_with_keycloak], [extract_user_info])
      - [backend_client.py]    ([BackendServiceClient], [call_service])
      - [tools/backend_query_tool.py] ([query_backend_service])

    Python values are an inductive type of JSON-shaped data, exceptions are
    pairs of a class and a message, and the two HTTP exchanges are read from
    a [world] and recorded in a trace of network events.  Calls to the logger
    neither change control flow nor any returned value and are left out. *)

From Stdlib Require Import ZArith List String Ascii Bool Lia QArith.
From Stdlib Require Import Numbers.DecimalString Floats.SpecFloat.
Import ListNotations.
Open Scope string_scope.
Open Scope Z_scope.
Set Warnings "-register-all".

(* ================================================================= *)
(** ** Python values *)

Inductive pyval : Type :=
| PNone
| PBool (b : bool)
| PInt (z : Z)
| PFloat (f : spec_float)
| PStr (s : string)
| PList (l : list pyval)
| PDict (d : list (string * pyval)).

(** A [dict] keeps its keys in insertion order, which iteration exposes. *)
Definition pydict : Type := list (string * pyval).

(** [bool(v)]: the values Python treats as true. *)
Definition truthy (v : pyval) : bool :=
  match v with
  | PNone => false
  | PBool b => b
  | PInt z => negb (z =? 0)
  | PFloat (S754_zero _) => false
  | PFloat _ => true
  | PStr s => negb (s =? "")%string
  | PList l => match l with [] => false | _ => true end
  | PDict d => match d with [] => false | _ => true end
  end.

(** [k in d] and [d.get(k, default)] on a dict. *)
Fixpoint dict_find (k : string) (d : pydict) : option pyval :=
  match d with
  | [] => None
  | (k', v) :: d' => if (k =? k')%string then Some v else dict_find k d'
  end.

Definition dict_has (k : string) (d : pydict) : bool :=
  match dict_find k d with Some _ => true | None => false end.

Definition dict_get (k : string) (default : pyval) (d : pydict) : pyval :=
  match dict_find k d with Some v => v | None => default end.

(** [d[k] = v]: overwrite in place, or append a new key. *)
Fixpoint dict_set (k : string) (v : pyval) (d : pydict) : pydict :=
  match d with
  | [] => [(k, v)]
  | (k', v') :: d' =>
      if (k =? k')%string then (k, v) :: d' else (k', v') :: dict_set k v d'
  end.

(** ** Strings *)

Fixpoint is_prefix (p s : string) : bool :=
  match p, s with
  | EmptyString, _ => true
  | String a p', String b s' => (a =? b)%char && is_prefix p' s'
  | String _ _, EmptyString => false
  end.

(** [p in s] on two strings. *)
Fixpoint is_substring (p s : string) : bool :=
  is_prefix p s ||
  match s with
  | EmptyString => false
  | String _ s' => is_substring p s'
  end.

(** [s.lstrip(c)] for a one-character set. *)
Fixpoint lstrip (c : ascii) (s : string) : string :=
  match s with
  | EmptyString => EmptyString
  | String a s' => if (a =? c)%char then lstrip c s' else s
  end.

(** [s.rstrip(c)] for a one-character set. *)
Fixpoint rstrip (c : ascii) (s : string) : string :=
  match s with
  | EmptyString => EmptyString
  | String a s' =>
      match rstrip c s' with
      | EmptyString => if (a =? c)%char then EmptyString else String a EmptyString
      | r => String a r
      end
  end.

(** A [string] holds the UTF-8 encoding of a Python [str].  A byte of the
    form [10xxxxxx] continues the code point that the bytes before it
    began. *)
Definition is_continuation (a : ascii) : bool :=
  match a with
  | Ascii _ _ _ _ _ _ false true => true
  | _ => false
  end.

Definition continues (s : string) : bool :=
  match s with
  | String b _ => is_continuation b
  | EmptyString => false
  end.

(** The items of iterating a [str]: one string per code point, that is,
    every byte together with the continuation bytes that follow it. *)
Fixpoint chars (s : string) : list string :=
  match s with
  | EmptyString => []
  | String a s' =>
      if continues s' then
        match chars s' with
        | c :: rest => String a c :: rest
        | [] => [String a EmptyString]
        end
      else String a EmptyString :: chars s'
  end.

Fixpoint join (sep : string) (l : list string) : string :=
  match l with
  | [] => ""
  | [x] => x
  | x :: l' => x ++ sep ++ join sep l'
  end.

(** Decimal rendering of an [int], as in [f"{n}"]. *)
Definition str_int (z : Z) : string := NilZero.string_of_int (Z.to_int z).

Definition slash : ascii := "/"%char.

(* ================================================================= *)
(** ** Exceptions and outcomes *)

(** The exception classes that occur.  All of them derive from
    [Exception]; the three [Httpx*] classes stand for the [httpx.HTTPError]
    family ([TimeoutException] is a [RequestError]; [HTTPStatusError] is an
    [HTTPError] that is not a [RequestError]).  [OtherException] is any
    other [Exception], for instance the [ValueError] of a failed JSON
    decoding. *)
Inductive exn_class : Type :=
| TokenValidationError
| BackendServiceError
| HttpxTimeoutException
| HttpxRequestError
| HttpxHTTPStatusError
| TypeError
| KeyError
| AttributeError
| OtherException.

(** An exception: its class and [str(e)]. *)
Record exn : Type := mkExn { exn_cls : exn_class; exn_msg : string }.

Definition is_HTTPError (c : exn_class) : bool :=
  match c with
  | HttpxTimeoutException | HttpxRequestError | HttpxHTTPStatusError => true
  | _ => false
  end.

Definition is_TimeoutException (c : exn_class) : bool :=
  match c with HttpxTimeoutException => true | _ => false end.

Definition is_RequestError (c : exn_class) : bool :=
  match c with HttpxTimeoutException | HttpxRequestError => true | _ => false end.

Definition is_TokenValidationError (c : exn_class) : bool :=
  match c with TokenValidationError => true | _ => false end.

Definition is_BackendServiceError (c : exn_class) : bool :=
  match c with BackendServiceError => true | _ => false end.

(** [except Exception] *)
Definition is_Exception (c : exn_class) : bool := true.

Inductive outcome (A : Type) : Type :=
| Return (a : A)
| Raise (e : exn).
Arguments Return {A} a.
Arguments Raise {A} e.

Definition bind {A B : Type} (m : outcome A) (k : A -> outcome B) : outcome B :=
  match m with
  | Return a => k a
  | Raise e => Raise e
  end.

Notation "x <- m ;; k" := (bind m (fun x => k))
  (at level 61, m at next level, right associativity).

(** The operations the interpreter rejects at run time.  The text of the
    resulting [TypeError] or [AttributeError] belongs to the interpreter. *)
Inductive fault : Type :=
| NotContainer (v : pyval)
| NotSubscriptable (v : pyval)
| BadIndex (v : pyval)
| NotIterable (v : pyval)
| NoAttribute (v : pyval) (attr : string).

(** What the Python runtime decides and the program does not: how [repr]
    quotes a string and prints a float, and the text of run-time errors. *)
Record runtime : Type := mkRuntime {
  repr_str : string -> string;
  repr_float : spec_float -> string;
  fault_msg : fault -> string
}.

(* ================================================================= *)
(** ** The HTTP collaborators *)

(** An [httpx.Response] as the program observes it: [json] is the outcome
    of [response.json()], [raise_for_status] is [Some m] when
    [response.raise_for_status()] raises [httpx.HTTPStatusError(m)]. *)
Record response : Type := mkResponse {
  status_code : Z;
  text : string;
  json : outcome pyval;
  raise_for_status : option string
}.

(** Keyword arguments of [call_service]: the optional [headers] entry that
    the method pops, and the rest, passed on to [client.request]. *)
Record kwargs : Type := mkKwargs {
  kw_headers : option pydict;
  kw_rest : pydict
}.

Definition no_kwargs : kwargs := mkKwargs None [].

(** A network request issued by the program. *)
Inductive event : Type :=
| NetPost (url : pyval) (data : pydict) (headers : pydict)
| NetRequest (method : string) (url : string) (headers : pydict)
             (rest : pydict) (timeout : Q).

(** The settings object and the answers of the network. *)
Record world : Type := mkWorld {
  SSO_INTROSPECTION_URL : pyval;
  SSO_CLIENT_ID : pyval;
  SSO_CLIENT_SECRET : pyval;
  http_post : pyval -> pydict -> pydict -> outcome response;
  http_request : string -> string -> pydict -> pydict -> outcome response
}.

(** A computation: the requests it issued, in order, and how it ended. *)
Definition eff (A : Type) : Type := (list event * outcome A)%type.

(* ================================================================= *)
(** ** Operations of the interpreter on values *)

Section Program.

Variable rt : runtime.
Variable w : world.

Definition type_error (f : fault) : exn := mkExn TypeError (fault_msg rt f).

(** [repr(v)] *)
Fixpoint py_repr (v : pyval) : string :=
  match v with
  | PNone => "None"
  | PBool true => "True"
  | PBool false => "False"
  | PInt z => str_int z
  | PFloat f => repr_float rt f
  | PStr s => repr_str rt s
  | PList l => "[" ++ join ", " (map py_repr l) ++ "]"
  | PDict d =>
      "{" ++ join ", "
               (map (fun kv : string * pyval => let (k, x) := kv in
                               repr_str rt k ++ ": " ++ py_repr x) d) ++ "}"
  end.

(** [str(v)], which is what an f-string field prints. *)
Definition py_str (v : pyval) : string :=
  match v with
  | PStr s => s
  | _ => py_repr v
  end.

(** [v.get(k, default)] *)
Definition py_get (v : pyval) (k : string) (default : pyval) : outcome pyval :=
  match v with
  | PDict d => Return (dict_get k default d)
  | _ => Raise (mkExn AttributeError (fault_msg rt (NoAttribute v "get")))
  end.

Definition is_str (k : string) (v : pyval) : bool :=
  match v with
  | PStr s => (s =? k)%string
  | _ => false
  end.

(** [k in v] for a string [k] *)
Definition py_contains (k : string) (v : pyval) : outcome bool :=
  match v with
  | PDict d => Return (dict_has k d)
  | PList l => Return (existsb (is_str k) l)
  | PStr s => Return (is_substring k s)
  | _ => Raise (type_error (NotContainer v))
  end.

(** [v[k]] for a string [k] *)
Definition py_getitem (v : pyval) (k : string) : outcome pyval :=
  match v with
  | PDict d =>
      match dict_find k d with
      | Some x => Return x
      | None => Raise (mkExn KeyError (repr_str rt k))
      end
  | PList _ | PStr _ => Raise (type_error (BadIndex v))
  | _ => Raise (type_error (NotSubscriptable v))
  end.

(** The items [list.extend(v)] appends: the elements of a list, the
    characters of a string, the keys of a dict. *)
Definition py_iter (v : pyval) : outcome (list pyval) :=
  match v with
  | PList l => Return l
  | PStr s => Return (map PStr (chars s))
  | PDict d => Return (map (fun kv : string * pyval => PStr (fst kv)) d)
  | _ => Raise (type_error (NotIterable v))
  end.

(** [isinstance(v, list)] *)
Definition is_list (v : pyval) : bool :=
  match v with PList _ => true | _ => false end.

(* ================================================================= *)
(** ** [token_validator.py] *)

Definition inactive_msg : string := "Token is not active or has expired".

(** The form fields and the headers of the introspection request. *)
Definition introspection_data (access_token : string) : pydict :=
  [("token", PStr access_token);
   ("client_id", SSO_CLIENT_ID w);
   ("client_secret", SSO_CLIENT_SECRET w)].

Definition introspection_headers : pydict :=
  [("Content-Type", PStr "application/x-www-form-urlencoded")].

(** [client.post(introspection_url, data=..., headers=...)] *)
Definition introspect (access_token : string) : outcome response :=
  http_post w (SSO_INTROSPECTION_URL w)
            (introspection_data access_token) introspection_headers.

Definition validate_token_with_keycloak (access_token : string) : eff pyval :=
  if negb (truthy (PStr access_token)) then
    ([], Raise (mkExn TokenValidationError "Access token is required"))
  else
    let introspection_url := SSO_INTROSPECTION_URL w in
    if negb (truthy introspection_url) then
      ([], Raise (mkExn TokenValidationError "SSO_INTROSPECTION_URL not configured"))
    else
      let body : outcome pyval :=
        response <- introspect access_token ;;
        _ <- match raise_for_status response with
             | Some m => Raise (mkExn HttpxHTTPStatusError m)
             | None => Return tt
             end ;;
        token_info <- json response ;;
        (* check that the token is active *)
        active <- py_get token_info "active" (PBool false) ;;
        if negb (truthy active) then
          Raise (mkExn TokenValidationError inactive_msg)
        else
          Return token_info in
      ([NetPost introspection_url (introspection_data access_token)
                introspection_headers],
       match body with
       | Return token_info => Return token_info
       | Raise e =>
           if is_HTTPError (exn_cls e) then
             Raise (mkExn TokenValidationError
                          ("Failed to validate token: " ++ exn_msg e))
           else if is_Exception (exn_cls e) then
             Raise (mkExn TokenValidationError
                          ("Token validation error: " ++ exn_msg e))
           else Raise e
       end).

(** The [username] of [extract_user_info]: an [or] chain, evaluated left
    to right. *)
Definition extract_username (token_info : pyval) : outcome pyval :=
  preferred <- py_get token_info "preferred_username" PNone ;;
  if truthy preferred then Return preferred else
    username <- py_get token_info "username" PNone ;;
    if truthy username then Return username else
      email <- py_get token_info "email" PNone ;;
      if truthy email then Return email else
        py_get token_info "sub" PNone.

(** The block under [# Keycloak realm roles]. *)
Definition extend_realm_roles (token_info : pyval) (roles : list pyval)
  : outcome (list pyval) :=
  has_realm <- py_contains "realm_access" token_info ;;
  has_realm_roles <-
    (if has_realm then
       realm_access <- py_getitem token_info "realm_access" ;;
       py_contains "roles" realm_access
     else Return false) ;;
  if has_realm_roles then
    realm_access <- py_getitem token_info "realm_access" ;;
    realm_roles <- py_getitem realm_access "roles" ;;
    items <- py_iter realm_roles ;;
    Return (roles ++ items)%list
  else Return roles.

(** The block under [# Direct roles claim]. *)
Definition extend_direct_roles (token_info : pyval) (roles : list pyval)
  : outcome (list pyval) :=
  has_roles <- py_contains "roles" token_info ;;
  if has_roles then
    direct <- py_getitem token_info "roles" ;;
    if is_list direct then
      items <- py_iter direct ;;
      Return (roles ++ items)%list
    else Return roles
  else Return roles.

(** The block under [# Extract groups]. *)
Definition extract_groups (token_info : pyval) : outcome pyval :=
  let groups := PList [] in
  has_groups <- py_contains "groups" token_info ;;
  if has_groups then
    g <- py_getitem token_info "groups" ;;
    if is_list g then Return g else Return groups
  else Return groups.

Definition extract_user_info (token_info : pyval) : outcome pyval :=
  username <- extract_username token_info ;;
  let roles : list pyval := [] in
  roles <- extend_realm_roles token_info roles ;;
  roles <- extend_direct_roles token_info roles ;;
  groups <- extract_groups token_info ;;
  email <- py_get token_info "email" PNone ;;
  user_id <- py_get token_info "sub" PNone ;;
  Return (PDict [("username", username);
                 ("email", email);
                 ("user_id", user_id);
                 ("roles", PList roles);
                 ("groups", groups)]).

(* ================================================================= *)
(** ** [backend_client.py] *)

Record BackendServiceClient : Type := mkClient {
  base_url : string;
  timeout : Q
}.

Definition default_timeout : Q := 30%Q.

(** [BackendServiceClient.__init__] *)
Definition BackendServiceClient_init (base_url : string) (timeout : Q)
  : BackendServiceClient :=
  mkClient (rstrip slash base_url) timeout.

(** The URL a client requests for an endpoint. *)
Definition request_url (self : BackendServiceClient) (endpoint : string) : string :=
  base_url self ++ "/" ++ lstrip slash endpoint.

(** [headers = kwargs.pop("headers", {})] followed by
    [headers["Authorization"] = f"Bearer {access_token}"]. *)
Definition request_headers (access_token : string) (kw : kwargs) : pydict :=
  let headers := match kw_headers kw with Some h => h | None => [] end in
  dict_set "Authorization" (PStr ("Bearer " ++ access_token)) headers.

Definition auth_failed_msg : string :=
  "Backend service authentication failed - token may be invalid".

Definition authz_failed_msg : string :=
  "Backend service authorization failed - insufficient permissions".

Definition call_service (self : BackendServiceClient) (access_token : string)
  (endpoint : string) (method : string) (kw : kwargs) : eff pyval :=
  if negb (truthy (PStr access_token)) then
    ([], Raise (mkExn BackendServiceError "Access token is required"))
  else
    let url := request_url self endpoint in
    let headers := request_headers access_token kw in
    let body : outcome pyval :=
      response <- http_request w method url headers (kw_rest kw) ;;
      if status_code response =? 401 then
        Raise (mkExn BackendServiceError auth_failed_msg)
      else if status_code response =? 403 then
        Raise (mkExn BackendServiceError authz_failed_msg)
      else if status_code response >=? 400 then
        let error_msg := "Backend service error: " ++ str_int (status_code response) in
        let error_msg :=
          match json response with
          | Return error_data => error_msg ++ " - " ++ py_str error_data
          | Raise _ => error_msg ++ " - " ++ text response
          end in
        Raise (mkExn BackendServiceError error_msg)
      else
        match json response with
        | Return v => Return v
        | Raise _ =>
            Return (PDict [("content", PStr (text response));
                           ("status_code", PInt (status_code response))])
        end in
    ([NetRequest method url headers (kw_rest kw) (timeout self)],
     match body with
     | Return v => Return v
     | Raise e =>
         if is_TimeoutException (exn_cls e) then
           Raise (mkExn BackendServiceError ("Backend service timeout: " ++ url))
         else if is_RequestError (exn_cls e) then
           Raise (mkExn BackendServiceError
                        ("Backend service request failed: " ++ exn_msg e))
         else Raise e
     end).

Definition call_backend_with_token (access_token backend_url endpoint method : string)
  (kw : kwargs) : eff pyval :=
  let client := BackendServiceClient_init backend_url default_timeout in
  call_service client access_token endpoint method kw.

(* ================================================================= *)
(** ** [tools/backend_query_tool.py] *)

(** The [try] block of [query_backend_service]: the requests issued, the
    local [user_info] if it was bound when the block ended, and how the
    block ended. *)
Definition query_try (access_token backend_url endpoint : string)
  : list event * option pyval * outcome pyval :=
  (* Step 1: validate the token *)
  let (t1, validated) := validate_token_with_keycloak access_token in
  match validated with
  | Raise e => (t1, None, Raise e)
  | Return token_info =>
      (* Step 2: extract user information *)
      match extract_user_info token_info with
      | Raise e => (t1, None, Raise e)
      | Return user_info =>
          (* Step 3: call the backend with the same token *)
          let client := BackendServiceClient_init backend_url default_timeout in
          let (t2, called) := call_service client access_token endpoint "GET" no_kwargs in
          match called with
          | Raise e => ((t1 ++ t2)%list, Some user_info, Raise e)
          | Return backend_response =>
              (* Step 4: the combined result *)
              ((t1 ++ t2)%list, Some user_info,
               username <- py_getitem user_info "username" ;;
               Return (PDict [("status", PStr "success");
                              ("user", user_info);
                              ("backend_response", backend_response);
                              ("message",
                               PStr ("Successfully called backend service as "
                                       ++ py_str username))]))
          end
      end
  end.

Definition query_backend_service (access_token backend_url endpoint : string)
  : eff pyval :=
  let '(trace, local_user_info, ended) := query_try access_token backend_url endpoint in
  (trace,
   match ended with
   | Return envelope => Return envelope
   | Raise e =>
       if is_TokenValidationError (exn_cls e) then
         Return (PDict [("status", PStr "error");
                        ("error", PStr "token_validation_failed");
                        ("message", PStr (exn_msg e))])
       else if is_BackendServiceError (exn_cls e) then
         Return (PDict [("status", PStr "error");
                        ("error", PStr "backend_service_failed");
                        ("message", PStr (exn_msg e));
                        ("user", match local_user_info with
                                 | Some user_info => user_info
                                 | None => PNone
                                 end)])
       else if is_Exception (exn_cls e) then
         Return (PDict [("status", PStr "error");
                        ("error", PStr "unexpected_error");
                        ("message", PStr (exn_msg e))])
       else Raise e
   end).

(** The default arguments of [query_backend_service]. *)
Definition default_backend_url : string := "http://localhost:8080".
Definition default_endpoint : string :=
  "/realms/master/protocol/openid-connect/userinfo".

(** Whether a trace contains a request to the backend. *)
Definition is_backend_request (ev : event) : bool :=
  match ev with NetRequest _ _ _ _ _ => true | NetPost _ _ _ => false end.

End Program.

(* ================================================================= *)
(** ** Vocabulary of the statements *)

(** A key of a dict value: [None] when the key is absent. *)
Definition field (k : string) (v : pyval) : option pyval :=
  match v with
  | PDict d => dict_find k d
  | _ => None
  end.

Definition starts_with (c : ascii) (s : string) : bool :=
  match s with
  | String a _ => (a =? c)%char
  | EmptyString => false
  end.

Fixpoint ends_with (c : ascii) (s : string) : bool :=
  match s with
  | EmptyString => false
  | String a EmptyString => (a =? c)%char
  | String _ s' => ends_with c s'
  end.

Fixpoint repeat_char (c : ascii) (n : nat) : string :=
  match n with
  | O => EmptyString
  | S n' => String c (repeat_char c n')
  end.

(** The first value of [candidates] that Python treats as true, and
    [otherwise] when there is none. *)
Fixpoint first_truthy (candidates : list pyval) (otherwise : pyval) : pyval :=
  match candidates with
  | [] => otherwise
  | v :: rest => if truthy v then v else first_truthy rest otherwise
  end.

(** The username as the specification words it: the first non-empty of the
    four claims, null when there is none. *)
Definition spec_username (d : pydict) : pyval :=
  first_truthy [dict_get "preferred_username" PNone d;
                dict_get "username" PNone d;
                dict_get "email" PNone d;
                dict_get "sub" PNone d] PNone.

(** The username the [or] chain yields: when no claim is true-ish the
    chain ends with the [sub] claim itself. *)
Definition chain_username (d : pydict) : pyval :=
  first_truthy [dict_get "preferred_username" PNone d;
                dict_get "username" PNone d;
                dict_get "email" PNone d]
               (dict_get "sub" PNone d).

(** [realm_access.roles], the top-level [roles] and [groups] claims read as
    lists: empty when absent or not list-shaped. *)
Definition list_claim (k : string) (d : pydict) : list pyval :=
  match dict_find k d with
  | Some (PList l) => l
  | _ => []
  end.

Definition realm_roles_claim (d : pydict) : list pyval :=
  match dict_find "realm_access" d with
  | Some (PDict realm_access) => list_claim "roles" realm_access
  | _ => []
  end.

(** The values of [realm_access] on which the realm block does what it
    is written for: absent; a mapping without [roles] or with a list under
    it; or a string or a list in which ["roles"] does not occur, which the
    membership test passes over. *)
Definition realm_access_guarded (d : pydict) : bool :=
  match dict_find "realm_access" d with
  | None => true
  | Some (PDict realm_access) =>
      match dict_find "roles" realm_access with
      | None => true
      | Some (PList _) => true
      | Some _ => false
      end
  | Some (PStr s) => negb (is_substring "roles" s)
  | Some (PList l) => negb (existsb (is_str "roles") l)
  | Some _ => false
  end.

(** The introspection exchange ended in a transport failure: the request
    raised an [httpx.HTTPError], or [raise_for_status] rejected the status. *)
Definition transport_failure (w : world) (access_token : string) : Prop :=
  (exists e, introspect w access_token = Raise e /\ is_HTTPError (exn_cls e) = true)
  \/ (exists r m, introspect w access_token = Return r /\ raise_for_status r = Some m).

(** The exception a caller of [validate_token_with_keycloak] receives for
    an inactive token: the [except Exception] clause re-raises the one
    raised inside the [try] block under its own prefix. *)
Definition inactive_error : exn :=
  mkExn TokenValidationError ("Token validation error: " ++ inactive_msg).

(** An error envelope without a [user] key. *)
Definition error_envelope (tag message : string) : pyval :=
  PDict [("status", PStr "error"); ("error", PStr tag); ("message", PStr message)].

(** The body a generic backend error reports: the decoded JSON printed by
    [str], or the raw text when the body does not decode. *)
Definition error_body (rt : runtime) (r : response) : string :=
  match json r with
  | Return error_data => py_str rt error_data
  | Raise _ => text r
  end.

(** The message of the generic error for status [code] and printed
    [body]. *)
Definition generic_error_msg (code : Z) (body : string) : string :=
  "Backend service error: " ++ str_int code ++ " - " ++ body.

(** The wrapper returned for a body that does not decode. *)
Definition raw_wrapper (r : response) : pyval :=
  PDict [("content", PStr (text r)); ("status_code", PInt (status_code r))].

(** The envelope of a failed backend call. *)
Definition backend_failed_envelope (message : string) (user : pyval) : pyval :=
  PDict [("status", PStr "error"); ("error", PStr "backend_service_failed");
         ("message", PStr message); ("user", user)].

(** The three envelopes of a failed [query_backend_service]. *)
Definition error_tags : list string :=
  ["token_validation_failed"; "backend_service_failed"; "unexpected_error"].

(** A result envelope: [status] is ["success"], with a user and a backend
    response and no error tag, or [status] is ["error"], with one of the
    three error tags and a message. *)
Definition is_envelope (env : pyval) : Prop :=
  (field "status" env = Some (PStr "success")
   /\ field "error" env = None
   /\ (exists user, field "user" env = Some user)
   /\ (exists backend_response, field "backend_response" env = Some backend_response))
  \/ (field "status" env = Some (PStr "error")
      /\ (exists tag, In tag error_tags /\ field "error" env = Some (PStr tag))
      /\ (exists message, field "message" env = Some (PStr message))).

(** *** Sample runtime, worlds and responses *)

Definition sample_runtime : runtime :=
  mkRuntime (fun s => "'" ++ s ++ "'") (fun _ => "0.0") (fun _ => "type error").

Definition sample_response (status : Z) (body : string) (decoded : outcome pyval)
  : response :=
  mkResponse status body decoded
             (if (200 <=? status) && (status <=? 299) then None else Some "status error").

Definition alice : pydict :=
  [("active", PBool true);
   ("preferred_username", PStr "alice");
   ("email", PStr "alice@example.com");
   ("sub", PStr "42");
   ("realm_access", PDict [("roles", PList [PStr "admin"])]);
   ("roles", PList [PStr "user"])].

(** A world whose introspection endpoint answers [introspection] and whose
    backend answers [backend]. *)
Definition sample_world (introspection backend : outcome response) : world :=
  mkWorld (PStr "http://keycloak/introspect") (PStr "mcp") (PStr "secret")
          (fun _ _ _ => introspection) (fun _ _ _ _ => backend).

Definition not_json : outcome pyval := Raise (mkExn OtherException "Expecting value").

Definition inactive_response : response :=
  sample_response 200 "inactive" (Return (PDict [("active", PBool false)])).

Definition active_response : response :=
  sample_response 200 "alice" (Return (PDict alice)).

(** The identity [extract_user_info] derives from [alice]. *)
Definition alice_identity : pyval :=
  PDict [("username", PStr "alice");
         ("email", PStr "alice@example.com");
         ("user_id", PStr "42");
         ("roles", PList [PStr "admin"; PStr "user"]);
         ("groups", PList [])].

(** Valid token, backend answering 401; inactive token; valid token,
    backend answering 200 with a JSON body. *)
Definition world_backend_401 : world :=
  sample_world (Return active_response)
               (Return (sample_response 401 "denied" not_json)).

Definition world_inactive : world :=
  sample_world (Return inactive_response)
               (Return (sample_response 200 "unused" not_json)).

Definition world_ok : world :=
  sample_world (Return active_response)
               (Return (sample_response 200 "{id: 1}"
                                        (Return (PDict [("id", PInt 1)])))).

Definition sample_client : BackendServiceClient :=
  BackendServiceClient_init "http://x/" default_timeout.

(* ================================================================= *)
(** ** [tools/list_capabilities.py] *)

Definition DEFAULT_BACKEND_URL : string := "http://localhost:8080".
Definition EXAMPLE_TOKEN : string := "eyJhbGc...".

(** The two entries of the local [tools] list. *)
Definition query_backend_service_tool : pyval :=
  PDict
    [("name", PStr "query_backend_service");
     ("description",
      PStr "Query backend REST service with OAuth token from Slack bot. Validates token with Keycloak and calls backend service. Defaults to Keycloak userinfo endpoint for local testing.");
     ("parameters",
      PDict
        [("access_token",
          PDict [("type", PStr "string");
                 ("description", PStr "OAuth access token from Slack bot");
                 ("required", PBool true)]);
         ("backend_url",
          PDict [("type", PStr "string");
                 ("description",
                  PStr ("Base URL of the backend REST service (default: "
                          ++ DEFAULT_BACKEND_URL ++ " - local Keycloak)"));
                 ("required", PBool false);
                 ("default", PStr DEFAULT_BACKEND_URL)]);
         ("endpoint",
          PDict [("type", PStr "string");
                 ("description",
                  PStr "API endpoint path (default: /realms/master/protocol/openid-connect/userinfo)");
                 ("required", PBool false);
                 ("default", PStr "/realms/master/protocol/openid-connect/userinfo")])]);
     ("returns",
      PDict [("type", PStr "object");
             ("description", PStr "User info and backend response data")]);
     ("requires_auth", PBool true);
     ("example",
      PDict [("access_token", PStr EXAMPLE_TOKEN);
             ("backend_url", PStr DEFAULT_BACKEND_URL);
             ("endpoint", PStr "/realms/master/protocol/openid-connect/userinfo")]);
     ("local_testing_examples",
      PList
        [PDict [("description", PStr "Get user info (default)");
                ("access_token", PStr EXAMPLE_TOKEN)];
         PDict [("description", PStr "List users (requires admin role)");
                ("access_token", PStr EXAMPLE_TOKEN);
                ("backend_url", PStr DEFAULT_BACKEND_URL);
                ("endpoint", PStr "/admin/realms/master/users")];
         PDict [("description", PStr "Get realm info (public)");
                ("access_token", PStr EXAMPLE_TOKEN);
                ("backend_url", PStr DEFAULT_BACKEND_URL);
                ("endpoint", PStr "/realms/master")]])].

Definition multiply_numbers_tool : pyval :=
  PDict
    [("name", PStr "multiply_numbers");
     ("description", PStr "Multiply two numbers together");
     ("parameters",
      PDict
        [("a", PDict [("type", PStr "number");
                      ("description", PStr "First number");
                      ("required", PBool true)]);
         ("b", PDict [("type", PStr "number");
                      ("description", PStr "Second number");
                      ("required", PBool true)])]);
     ("returns",
      PDict [("type", PStr "object");
             ("description", PStr "Result of multiplication")]);
     ("requires_auth", PBool false);
     ("example", PDict [("a", PInt 5); ("b", PInt 3)])].

Definition get_available_tools : pyval :=
  let tools := [query_backend_service_tool; multiply_numbers_tool] in
  PDict [("status", PStr "success");
         ("tool_count", PInt (Z.of_nat (List.length tools)));
         ("tools", PList tools);
         ("message",
          PStr ("Found " ++ str_int (Z.of_nat (List.length tools))
                         ++ " available tools"))].

Section Capabilities.

Variable rt : runtime.

(** The [for] loop of [get_tool_info]: the answer for the first tool whose
    [name] equals [tool_name], [None] when the loop runs to its end. *)
Fixpoint find_tool (tools : list pyval) (tool_name : string)
  : outcome (option pyval) :=
  match tools with
  | [] => Return None
  | tool :: rest =>
      name <- py_getitem rt tool "name" ;;
      if is_str tool_name name then
        Return (Some (PDict [("status", PStr "success"); ("tool", tool)]))
      else find_tool rest tool_name
  end.

(** [[t["name"] for t in tools]] *)
Fixpoint tool_names (tools : list pyval) : outcome (list pyval) :=
  match tools with
  | [] => Return []
  | t :: rest =>
      name <- py_getitem rt t "name" ;;
      names <- tool_names rest ;;
      Return (name :: names)
  end.

Definition get_tool_info (tool_name : string) : outcome pyval :=
  let all_tools := get_available_tools in
  tools <- py_getitem rt all_tools "tools" ;;
  items <- py_iter rt tools ;;
  found <- find_tool items tool_name ;;
  match found with
  | Some answer => Return answer
  | None =>
      tools <- py_getitem rt all_tools "tools" ;;
      items <- py_iter rt tools ;;
      names <- tool_names items ;;
      Return (PDict [("status", PStr "error");
                     ("error", PStr "tool_not_found");
                     ("message", PStr ("Tool '" ++ tool_name ++ "' not found"));
                     ("available_tools", PList names)])
  end.

End Capabilities.

(* ================================================================= *)
(** ** [slack_api.py] *)

(** The request models; a field left out of the request body takes its
    default. *)
Record BackendQueryRequest : Type := mkBackendQueryRequest {
  request_access_token : string;
  request_backend_url : string;
  request_endpoint : string
}.

Definition BackendQueryRequest_init (access_token : string)
  (backend_url endpoint : option string) : BackendQueryRequest :=
  mkBackendQueryRequest
    access_token
    (match backend_url with Some u => u | None => "http://localhost:8080" end)
    (match endpoint with
     | Some e => e
     | None => "/realms/master/protocol/openid-connect/userinfo"
     end).

Record ToolInfoRequest : Type := mkToolInfoRequest {
  request_tool_name : string
}.

Definition slack_query_backend (rt : runtime) (w : world)
  (request : BackendQueryRequest) : eff pyval :=
  query_backend_service rt w (request_access_token request)
                        (request_backend_url request) (request_endpoint request).

Definition slack_list_tools : pyval := get_available_tools.

Definition slack_get_tool_info (rt : runtime) (request : ToolInfoRequest)
  : outcome pyval :=
  get_tool_info rt (request_tool_name request).

Definition slack_health_check : pyval :=
  PDict [("status", PStr "healthy");
         ("service", PStr "slack-integration-api");
         ("message", PStr "Ready for Slack bot requests")].

(* ================================================================= *)
(** ** Further vocabulary *)

(** The claims [extract_user_info] reads. *)
Definition identity_claims : list string :=
  ["preferred_username"; "username"; "email"; "sub";
   "realm_access"; "roles"; "groups"].

(** The values of [realm_access] on which the realm block raises: a value
    that is no container; a string or a list in which ["roles"] occurs, which
    is then indexed by a string; a mapping whose [roles] cannot be iterated. *)
Definition not_iterable (v : pyval) : bool :=
  match v with
  | PList _ | PStr _ | PDict _ => false
  | _ => true
  end.

Definition realm_access_faulty (d : pydict) : bool :=
  match dict_find "realm_access" d with
  | None => false
  | Some (PDict realm_access) =>
      match dict_find "roles" realm_access with
      | None => false
      | Some v => not_iterable v
      end
  | Some (PStr s) => is_substring "roles" s
  | Some (PList l) => existsb (is_str "roles") l
  | Some _ => true
  end.

(** A string that is one code point: a byte followed by continuation
    bytes only. *)
Fixpoint all_continuation (s : string) : bool :=
  match s with
  | EmptyString => true
  | String b s' => is_continuation b && all_continuation s'
  end.

Definition one_code_point (c : string) : bool :=
  match c with
  | EmptyString => false
  | String _ t => all_continuation t
  end.

(** The single request of [call_service]. *)
Definition backend_request (self : BackendServiceClient)
  (access_token endpoint method : string) (kw : kwargs) : event :=
  NetRequest method (request_url self endpoint)
             (request_headers access_token kw) (kw_rest kw) (timeout self).

(** The introspection request of [validate_token_with_keycloak]. *)
Definition introspection_request (w : world) (access_token : string) : event :=
  NetPost (SSO_INTROSPECTION_URL w) (introspection_data w access_token)
          introspection_headers.

(** The success envelope. *)
Definition success_envelope (user backend_response : pyval) (username : string)
  : pyval :=
  PDict [("status", PStr "success");
         ("user", user);
         ("backend_response", backend_response);
         ("message", PStr ("Successfully called backend service as " ++ username))].

(** The names of the tools [get_available_tools] lists. *)
Definition listed_tools : list pyval :=
  [query_backend_service_tool; multiply_numbers_tool].

(** *** Further sample worlds *)

Definition world_unconfigured : world :=
  mkWorld PNone (PStr "mcp") (PStr "secret")
          (fun _ _ _ => Return active_response)
          (fun _ _ _ _ => Return (sample_response 200 "unused" not_json)).

Definition string_active : pydict := [("active", PStr "false"); ("sub", PStr "42")].

Definition world_string_active : world :=
  sample_world (Return (sample_response 200 "string" (Return (PDict string_active))))
               (Return (sample_response 200 "unused" not_json)).

Definition timed_out : exn := mkExn HttpxTimeoutException "timed out".

Definition world_timeout : world :=
  sample_world (Raise timed_out) (Raise timed_out).

Definition world_not_json : world :=
  sample_world (Return (sample_response 200 "<html>" not_json))
               (Return (sample_response 200 "unused" not_json)).

Definition world_backend_down : world :=
  sample_world (Return active_response) (Raise timed_out).

Definition world_backend_crash : world :=
  sample_world (Return active_response)
               (Raise (mkExn OtherException "unsupported protocol")).

Definition null_realm : pydict := [("active", PBool true); ("realm_access", PNone)].

Definition world_null_realm : world :=
  sample_world (Return (sample_response 200 "null realm" (Return (PDict null_realm))))
               (Return (sample_response 200 "unused" not_json)).

Definition string_roles : pydict :=
  [("realm_access", PDict [("roles", PStr "ab")]); ("roles", PList [PStr "user"])].

Definition caller_kwargs : kwargs :=
  mkKwargs (Some [("Authorization", PStr "Basic x"); ("Accept", PStr "text/plain")])
           [].

(* ================================================================= *)
(** ** Lemmas on strings *)

Lemma rstrip_no_trailing (c : ascii) (s : string) :
  ends_with c (rstrip c s) = false.
Proof.
  induction s as [|a s IH]; simpl; [reflexivity|].
  destruct (rstrip c s) as [|b r] eqn:E.
  - destruct (Ascii.eqb a c) eqn:Eac; simpl; [reflexivity | exact Eac].
  - exact IH.
Qed.

Lemma rstrip_decomp (c : ascii) (s : string) :
  exists n, s = rstrip c s ++ repeat_char c n.
Proof.
  induction s as [|a s [n IH]]; simpl.
  - exists O. reflexivity.
  - destruct (rstrip c s) as [|b r] eqn:E.
    + destruct (Ascii.eqb a c) eqn:Eac.
      * apply Ascii.eqb_eq in Eac. subst a.
        exists (S n). simpl. simpl in IH. now rewrite <- IH.
      * exists n. simpl. simpl in IH. now rewrite <- IH.
    + exists n. simpl. simpl in IH. now rewrite <- IH.
Qed.

Lemma lstrip_no_leading (c : ascii) (s : string) :
  starts_with c (lstrip c s) = false.
Proof.
  induction s as [|a s IH]; simpl; [reflexivity|].
  destruct (Ascii.eqb a c) eqn:Eac; [exact IH | simpl; exact Eac].
Qed.

Lemma lstrip_decomp (c : ascii) (s : string) :
  exists n, s = repeat_char c n ++ lstrip c s.
Proof.
  induction s as [|a s [n IH]]; simpl.
  - exists O. reflexivity.
  - destruct (Ascii.eqb a c) eqn:Eac.
    + apply Ascii.eqb_eq in Eac. subst a.
      exists (S n). simpl. now rewrite <- IH.
    + exists O. reflexivity.
Qed.

Lemma append_empty_r (s : string) : s ++ "" = s.
Proof. induction s as [|a s IH]; simpl; [reflexivity | now rewrite IH]. Qed.

Lemma append_assoc (s t u : string) : (s ++ t) ++ u = s ++ t ++ u.
Proof. induction s as [|a s IH]; simpl; [reflexivity | now rewrite IH]. Qed.

Lemma is_prefix_app (p s : string) : is_prefix p (p ++ s) = true.
Proof.
  induction p as [|a p IH]; simpl; [reflexivity|].
  now rewrite Ascii.eqb_refl, IH.
Qed.

Lemma is_substring_app (before p s : string) :
  is_substring p (before ++ p ++ s) = true.
Proof.
  induction before as [|a before IH]; simpl.
  - destruct (p ++ s) eqn:E; simpl; rewrite <- E, is_prefix_app; reflexivity.
  - rewrite IH. apply orb_true_r.
Qed.

Lemma truthy_str (s : string) : truthy (PStr s) = false <-> s = "".
Proof.
  simpl. destruct (String.eqb_spec s ""); simpl; split; congruence.
Qed.

(* ================================================================= *)
(** ** The backend client's URL *)

(** C6. The URL requested for an endpoint is the base URL without its
    trailing slashes, one ["/"], and the endpoint without its leading
    slashes: the left part does not end and the right part does not start
    with a slash, and both differ from the arguments only by the slashes
    removed; ["http://x/"] and ["/y"] give ["http://x/y"]. *)
Theorem C6_request_url (base endpoint : string) (t : Q) :
  request_url (BackendServiceClient_init base t) endpoint
  = rstrip slash base ++ "/" ++ lstrip slash endpoint
  /\ ends_with slash (rstrip slash base) = false
  /\ starts_with slash (lstrip slash endpoint) = false
  /\ (exists n, base = rstrip slash base ++ repeat_char slash n)
  /\ (exists m, endpoint = repeat_char slash m ++ lstrip slash endpoint)
  /\ request_url (BackendServiceClient_init "http://x/" t) "/y" = "http://x/y".
Proof.
  repeat split.
  - apply rstrip_no_trailing.
  - apply lstrip_no_leading.
  - apply rstrip_decomp.
  - apply lstrip_decomp.
Qed.

(* ================================================================= *)
(** ** Empty tokens *)

(** C4. With an empty access token [validate_token_with_keycloak] and
    [call_service] both end at once with their "Access token is required"
    error, and neither issues a network request. *)
Theorem C4_empty_token_fails_without_request
  (rt : runtime) (w : world) (self : BackendServiceClient)
  (endpoint method : string) (kw : kwargs) :
  validate_token_with_keycloak rt w ""
  = ([], Raise (mkExn TokenValidationError "Access token is required"))
  /\ call_service rt w self "" endpoint method kw
     = ([], Raise (mkExn BackendServiceError "Access token is required")).
Proof. split; reflexivity. Qed.

(* ================================================================= *)
(** ** Inactive tokens *)

Lemma transport_failure_not_inactive (rt : runtime) (w : world) (access_token : string) :
  transport_failure w access_token ->
  snd (validate_token_with_keycloak rt w access_token) <> Raise inactive_error.
Proof.
  intros Hfail. unfold validate_token_with_keycloak.
  destruct (truthy (PStr access_token)); simpl; [|discriminate].
  destruct (truthy (SSO_INTROSPECTION_URL w)); simpl; [|discriminate].
  destruct Hfail as [(e & He & Hcls) | (r & m & Hr & Hm)].
  - rewrite He. simpl. rewrite Hcls. discriminate.
  - rewrite Hr. simpl. rewrite Hm. simpl. discriminate.
Qed.

(** C1. When the introspection endpoint answers with a well-formed body
    whose [active] is false or missing, [validate_token_with_keycloak] raises
    the inactive-token [TokenValidationError]; no transport failure ever
    produces that error; and [query_backend_service] answers with the
    [token_validation_failed] envelope after the introspection request alone,
    without a request to the backend. *)
Theorem C1_inactive_token_rejected
  (rt : runtime) (w : world) (access_token backend_url endpoint : string)
  (r : response) (d : pydict)
  (Htoken : access_token <> "")
  (Hconfigured : truthy (SSO_INTROSPECTION_URL w) = true)
  (Hanswer : introspect w access_token = Return r)
  (Hstatus : raise_for_status r = None)
  (Hbody : json r = Return (PDict d))
  (Hactive : dict_find "active" d = None \/ dict_find "active" d = Some (PBool false)) :
  snd (validate_token_with_keycloak rt w access_token) = Raise inactive_error
  /\ (forall rt' w' token',
        transport_failure w' token' ->
        snd (validate_token_with_keycloak rt' w' token') <> Raise inactive_error)
  /\ query_backend_service rt w access_token backend_url endpoint
     = ([NetPost (SSO_INTROSPECTION_URL w) (introspection_data w access_token)
                 introspection_headers],
        Return (error_envelope "token_validation_failed" (exn_msg inactive_error)))
  /\ existsb is_backend_request
             (fst (query_backend_service rt w access_token backend_url endpoint))
     = false.
Proof.
  assert (Hvalidate :
            validate_token_with_keycloak rt w access_token
            = ([NetPost (SSO_INTROSPECTION_URL w) (introspection_data w access_token)
                        introspection_headers],
               Raise inactive_error)).
  { unfold validate_token_with_keycloak.
    destruct (truthy (PStr access_token)) eqn:Et.
    2:{ apply truthy_str in Et. contradiction. }
    simpl. rewrite Hconfigured. simpl.
    rewrite Hanswer. simpl. rewrite Hstatus. simpl. rewrite Hbody. simpl.
    unfold dict_get.
    destruct Hactive as [Ha | Ha]; rewrite Ha; reflexivity. }
  assert (Hquery :
            query_backend_service rt w access_token backend_url endpoint
            = ([NetPost (SSO_INTROSPECTION_URL w) (introspection_data w access_token)
                        introspection_headers],
               Return (error_envelope "token_validation_failed"
                                      (exn_msg inactive_error)))).
  { unfold query_backend_service, query_try. rewrite Hvalidate. reflexivity. }
  split; [now rewrite Hvalidate|].
  split; [intros; now apply transport_failure_not_inactive|].
  split; [exact Hquery|].
  rewrite Hquery. reflexivity.
Qed.

Lemma C1_inactive_token_rejected_witness :
  snd (validate_token_with_keycloak
         sample_runtime (sample_world (Return inactive_response) (Raise inactive_error))
         "token")
  = Raise inactive_error.
Proof.
  apply (proj1 (C1_inactive_token_rejected
                  sample_runtime
                  (sample_world (Return inactive_response) (Raise inactive_error))
                  "token" "http://x/" "/y" inactive_response
                  [("active", PBool false)]
                  ltac:(discriminate) eq_refl eq_refl eq_refl eq_refl
                  (or_intror eq_refl))).
Defined.

(* ================================================================= *)
(** ** Identity extraction *)

Section Extraction.

Variable rt : runtime.

Lemma extract_username_dict (d : pydict) :
  extract_username rt (PDict d) = Return (chain_username d).
Proof.
  unfold extract_username, chain_username. simpl.
  destruct (truthy (dict_get "preferred_username" PNone d)); [reflexivity|].
  destruct (truthy (dict_get "username" PNone d)); [reflexivity|].
  destruct (truthy (dict_get "email" PNone d)); reflexivity.
Qed.

Lemma extend_direct_roles_dict (d : pydict) (roles : list pyval) :
  extend_direct_roles rt (PDict d) roles
  = Return (roles ++ list_claim "roles" d)%list.
Proof.
  unfold extend_direct_roles, list_claim, dict_has. simpl. unfold dict_has.
  destruct (dict_find "roles" d) as [v|]; simpl.
  - destruct v; simpl; rewrite ?app_nil_r; reflexivity.
  - now rewrite app_nil_r.
Qed.

Lemma extract_groups_dict (d : pydict) :
  extract_groups rt (PDict d) = Return (PList (list_claim "groups" d)).
Proof.
  unfold extract_groups, list_claim. simpl. unfold dict_has.
  destruct (dict_find "groups" d) as [v|]; simpl; [|reflexivity].
  destruct v; reflexivity.
Qed.

Lemma extend_realm_roles_guarded (d : pydict) (roles : list pyval) :
  realm_access_guarded d = true ->
  extend_realm_roles rt (PDict d) roles
  = Return (roles ++ realm_roles_claim d)%list.
Proof.
  unfold realm_access_guarded, extend_realm_roles, realm_roles_claim, list_claim.
  simpl. unfold dict_has.
  destruct (dict_find "realm_access" d) as [ra|]; simpl;
    [|intros _; now rewrite app_nil_r].
  destruct ra; try discriminate; simpl.
  - destruct (is_substring "roles" s); simpl;
      [discriminate | intros _; now rewrite app_nil_r].
  - destruct (existsb (is_str "roles") l); simpl;
      [discriminate | intros _; now rewrite app_nil_r].
  - unfold dict_has.
    destruct (dict_find "roles" d0) as [v|]; simpl;
      [|intros _; now rewrite app_nil_r].
    destruct v; try discriminate. reflexivity.
Qed.

(** Whatever [realm_access] holds, the realm block can only fail with a
    [TypeError]. *)
Lemma extend_realm_roles_raises (d : pydict) (roles : list pyval) (e : exn) :
  extend_realm_roles rt (PDict d) roles = Raise e -> exn_cls e = TypeError.
Proof.
  unfold extend_realm_roles. simpl. unfold dict_has.
  destruct (dict_find "realm_access" d) as [ra|]; simpl; [|discriminate].
  destruct ra; simpl; try (intros [= <-]; reflexivity).
  - destruct (is_substring "roles" s); simpl; [|discriminate].
    intros [= <-]; reflexivity.
  - destruct (existsb (is_str "roles") l); simpl; [|discriminate].
    intros [= <-]; reflexivity.
  - unfold dict_has.
    destruct (dict_find "roles" d0) as [v|]; simpl; [|discriminate].
    destruct v; simpl; try discriminate; intros [= <-]; reflexivity.
Qed.

(** C2 (amended). On every introspection result the username block returns
    the first true-ish value among [preferred_username], [username],
    [email], [sub], in that order, and the [sub] claim itself when none is
    true-ish; [extract_user_info] stores that value under [username] whenever
    it returns, and otherwise fails with a [TypeError].  The value differs
    from the one the specification words only when no claim is true-ish and
    [sub] is present: the specification says null, the chain yields [sub]. *)
Theorem C2_username_priority (d : pydict) :
  extract_username rt (PDict d) = Return (chain_username d)
  /\ match extract_user_info rt (PDict d) with
     | Return user => field "username" user = Some (chain_username d)
     | Raise e => exn_cls e = TypeError
     end
  /\ (chain_username d = spec_username d
      \/ (spec_username d = PNone
          /\ chain_username d = dict_get "sub" PNone d
          /\ truthy (chain_username d) = false)).
Proof.
  split; [apply extract_username_dict|]. split.
  - unfold extract_user_info. rewrite extract_username_dict. simpl.
    destruct (extend_realm_roles rt (PDict d) []) as [realm|e] eqn:E; simpl.
    + rewrite extend_direct_roles_dict, extract_groups_dict. reflexivity.
    + now apply extend_realm_roles_raises in E.
  - unfold chain_username, spec_username. simpl.
    destruct (truthy (dict_get "preferred_username" PNone d)); [now left|].
    destruct (truthy (dict_get "username" PNone d)); [now left|].
    destruct (truthy (dict_get "email" PNone d)); [now left|].
    destruct (truthy (dict_get "sub" PNone d)) eqn:Es; [now left|].
    right. auto.
Qed.

(** On an introspection result whose [realm_access] is absent, or holds
    no ["roles"] (a mapping without the key, a string or a list in which it
    does not occur), or is a mapping with a list under [roles],
    [extract_user_info] returns the record whose [roles] is the list
    [realm_access.roles] followed by the top-level [roles] claim when that is
    a list, and whose [groups] is the [groups] claim when that is a list and
    the empty list otherwise. *)
Theorem extract_roles_when_guarded (d : pydict)
  (Hguarded : realm_access_guarded d = true) :
  extract_user_info rt (PDict d)
  = Return (PDict [("username", chain_username d);
                   ("email", dict_get "email" PNone d);
                   ("user_id", dict_get "sub" PNone d);
                   ("roles", PList (realm_roles_claim d ++ list_claim "roles" d));
                   ("groups", PList (list_claim "groups" d))]).
Proof.
  unfold extract_user_info.
  rewrite extract_username_dict. simpl.
  rewrite (extend_realm_roles_guarded d [] Hguarded). simpl.
  rewrite extend_direct_roles_dict, extract_groups_dict. reflexivity.
Qed.

(** C7 (defect). The realm block lacks the [isinstance] guard that the
    top-level [roles] and [groups] blocks have.  With a top-level [roles]
    list of one role: a null [realm_access] and a number under
    [realm_access.roles] make [extract_user_info] raise a [TypeError], so
    that no roles are extracted at all; a string under [realm_access.roles]
    is taken apart into its characters, each of which becomes a role;
    whereas a number under the top-level [roles] and a string under [groups]
    are passed over. *)
Theorem C7_realm_roles_unguarded :
  extract_user_info
    rt (PDict [("active", PBool true); ("realm_access", PNone);
               ("roles", PList [PStr "user"])])
  = Raise (mkExn TypeError (fault_msg rt (NotContainer PNone)))
  /\ extract_user_info
       rt (PDict [("active", PBool true);
                  ("realm_access", PDict [("roles", PInt 5)]);
                  ("roles", PList [PStr "user"])])
     = Raise (mkExn TypeError (fault_msg rt (NotIterable (PInt 5))))
  /\ extract_user_info
       rt (PDict [("active", PBool true);
                  ("realm_access", PDict [("roles", PStr "ab")]);
                  ("roles", PList [PStr "user"])])
     = Return (PDict [("username", PNone); ("email", PNone); ("user_id", PNone);
                      ("roles", PList [PStr "a"; PStr "b"; PStr "user"]);
                      ("groups", PList [])])
  /\ extract_user_info
       rt (PDict [("active", PBool true);
                  ("realm_access", PDict [("roles", PList [PStr "admin"])]);
                  ("roles", PInt 5); ("groups", PStr "ab")])
     = Return (PDict [("username", PNone); ("email", PNone); ("user_id", PNone);
                      ("roles", PList [PStr "admin"]);
                      ("groups", PList [])]).
Proof. repeat split. Qed.

(** C3 (defect). [extract_user_info] raises a [TypeError] on an active
    introspection result whose [realm_access] is null, and on one whose
    [realm_access.roles] is a number, whereas the same shapes under the
    top-level [roles] and [groups] claims, which are guarded by [isinstance],
    are ignored. *)
Theorem C3_realm_access_unguarded :
  extract_user_info rt (PDict [("active", PBool true); ("realm_access", PNone)])
  = Raise (mkExn TypeError (fault_msg rt (NotContainer PNone)))
  /\ extract_user_info
       rt (PDict [("active", PBool true);
                  ("realm_access", PDict [("roles", PInt 5)])])
     = Raise (mkExn TypeError (fault_msg rt (NotIterable (PInt 5))))
  /\ extract_user_info
       rt (PDict [("active", PBool true); ("roles", PInt 5); ("groups", PNone)])
     = Return (PDict [("username", PNone); ("email", PNone); ("user_id", PNone);
                      ("roles", PList []); ("groups", PList [])]).
Proof. repeat split. Qed.

End Extraction.

Lemma C2_username_counterexample :
  extract_user_info sample_runtime (PDict [("sub", PStr "")])
  = Return (PDict [("username", PStr ""); ("email", PNone); ("user_id", PStr "");
                   ("roles", PList []); ("groups", PList [])])
  /\ spec_username [("sub", PStr "")] = PNone
  /\ field "username"
           (PDict [("username", PStr ""); ("email", PNone); ("user_id", PStr "");
                   ("roles", PList []); ("groups", PList [])])
     <> Some (spec_username [("sub", PStr "")]).
Proof. repeat split. discriminate. Qed.

Lemma extract_roles_when_guarded_witness :
  extract_user_info sample_runtime (PDict alice)
  = Return (PDict [("username", PStr "alice");
                   ("email", PStr "alice@example.com");
                   ("user_id", PStr "42");
                   ("roles", PList [PStr "admin"; PStr "user"]);
                   ("groups", PList [])]).
Proof. exact (extract_roles_when_guarded sample_runtime alice eq_refl). Defined.

(* ================================================================= *)
(** ** Classification of backend responses *)

Lemma generic_error_msg_mentions (code : Z) (body : string) :
  is_substring (str_int code) (generic_error_msg code body) = true
  /\ is_substring body (generic_error_msg code body) = true.
Proof.
  unfold generic_error_msg. split.
  - apply is_substring_app.
  - replace ("Backend service error: " ++ str_int code ++ " - " ++ body)
      with (("Backend service error: " ++ str_int code ++ " - ") ++ body ++ "").
    + apply is_substring_app.
    + rewrite append_empty_r, !append_assoc. reflexivity.
Qed.

Lemma generic_error_msg_distinct (code : Z) (body : string) :
  generic_error_msg code body <> auth_failed_msg
  /\ generic_error_msg code body <> authz_failed_msg.
Proof. unfold generic_error_msg. split; simpl; discriminate. Qed.

(** C5. When the backend answers a request made with a non-empty token,
    [call_service] classifies the response in this order: status 401 raises
    the authentication error; status 403 raises the authorization error; any
    other status from 400 up raises the generic error, whose message contains
    the status code and the decoded body or, failing that, the raw text, and
    which is never one of the two former errors; any lower status returns the
    decoded body or, when decoding fails, the wrapper with the raw text and
    the status code. *)
Theorem C5_response_classification
  (rt : runtime) (w : world) (self : BackendServiceClient)
  (access_token endpoint method : string) (kw : kwargs) (r : response)
  (Htoken : access_token <> "")
  (Hanswer : http_request w method (request_url self endpoint)
                          (request_headers access_token kw) (kw_rest kw)
             = Return r) :
  (status_code r = 401 ->
   snd (call_service rt w self access_token endpoint method kw)
   = Raise (mkExn BackendServiceError auth_failed_msg))
  /\ (status_code r = 403 ->
      snd (call_service rt w self access_token endpoint method kw)
      = Raise (mkExn BackendServiceError authz_failed_msg))
  /\ (400 <= status_code r -> status_code r <> 401 -> status_code r <> 403 ->
      snd (call_service rt w self access_token endpoint method kw)
      = Raise (mkExn BackendServiceError
                     (generic_error_msg (status_code r) (error_body rt r)))
      /\ is_substring (str_int (status_code r))
                      (generic_error_msg (status_code r) (error_body rt r)) = true
      /\ is_substring (error_body rt r)
                      (generic_error_msg (status_code r) (error_body rt r)) = true
      /\ generic_error_msg (status_code r) (error_body rt r) <> auth_failed_msg
      /\ generic_error_msg (status_code r) (error_body rt r) <> authz_failed_msg)
  /\ (status_code r < 400 ->
      snd (call_service rt w self access_token endpoint method kw)
      = match json r with
        | Return decoded => Return decoded
        | Raise _ => Return (raw_wrapper r)
        end).
Proof.
  assert (Hcall :
            snd (call_service rt w self access_token endpoint method kw)
            = if status_code r =? 401 then
                Raise (mkExn BackendServiceError auth_failed_msg)
              else if status_code r =? 403 then
                Raise (mkExn BackendServiceError authz_failed_msg)
              else if status_code r >=? 400 then
                Raise (mkExn BackendServiceError
                             (generic_error_msg (status_code r) (error_body rt r)))
              else match json r with
                   | Return decoded => Return decoded
                   | Raise _ => Return (raw_wrapper r)
                   end).
  { unfold call_service.
    destruct (truthy (PStr access_token)) eqn:Et.
    2:{ apply truthy_str in Et. contradiction. }
    simpl. rewrite Hanswer. simpl.
    destruct (status_code r =? 401); [reflexivity|].
    destruct (status_code r =? 403); [reflexivity|].
    destruct (status_code r >=? 400).
    - unfold generic_error_msg, error_body.
      destruct (json r); simpl; rewrite ?append_assoc; reflexivity.
    - destruct (json r); reflexivity. }
  rewrite Hcall. repeat split.
  - intros ->. reflexivity.
  - intros ->. reflexivity.
  - destruct (Z.eqb_spec (status_code r) 401); [contradiction|].
    destruct (Z.eqb_spec (status_code r) 403); [contradiction|].
    destruct (Z.geb_spec (status_code r) 400); [reflexivity|lia].
  - apply generic_error_msg_mentions.
  - apply generic_error_msg_mentions.
  - apply generic_error_msg_distinct.
  - apply generic_error_msg_distinct.
  - intros Hlow.
    destruct (Z.eqb_spec (status_code r) 401); [lia|].
    destruct (Z.eqb_spec (status_code r) 403); [lia|].
    destruct (Z.geb_spec (status_code r) 400); [lia|reflexivity].
Qed.

Lemma C5_response_classification_witness :
  snd (call_service sample_runtime
         (sample_world (Raise inactive_error)
                       (Return (sample_response 401 "denied" not_json)))
         sample_client "token" "/y" "GET" no_kwargs)
  = Raise (mkExn BackendServiceError auth_failed_msg)
  /\ snd (call_service sample_runtime
            (sample_world (Raise inactive_error)
                          (Return (sample_response 200 "plain text" not_json)))
            sample_client "token" "/y" "GET" no_kwargs)
     = Return (PDict [("content", PStr "plain text"); ("status_code", PInt 200)]).
Proof.
  split.
  - exact (proj1 (C5_response_classification
                    sample_runtime
                    (sample_world (Raise inactive_error)
                                  (Return (sample_response 401 "denied" not_json)))
                    sample_client "token" "/y" "GET" no_kwargs
                    (sample_response 401 "denied" not_json)
                    ltac:(discriminate) eq_refl) eq_refl).
  - exact (proj2 (proj2 (proj2 (C5_response_classification
                    sample_runtime
                    (sample_world (Raise inactive_error)
                                  (Return (sample_response 200 "plain text" not_json)))
                    sample_client "token" "/y" "GET" no_kwargs
                    (sample_response 200 "plain text" not_json)
                    ltac:(discriminate) eq_refl))) eq_refl).
Defined.

(* ================================================================= *)
(** ** The orchestrator *)

Section Orchestrator.

Variable rt : runtime.
Variable w : world.

(** [validate_token_with_keycloak] raises nothing but
    [TokenValidationError]. *)
Lemma validate_raises (access_token : string) (e : exn) :
  snd (validate_token_with_keycloak rt w access_token) = Raise e ->
  exn_cls e = TokenValidationError.
Proof.
  unfold validate_token_with_keycloak.
  destruct (truthy (PStr access_token)); simpl; [|intros [= <-]; reflexivity].
  destruct (truthy (SSO_INTROSPECTION_URL w)); simpl; [|intros [= <-]; reflexivity].
  match goal with
  | |- context [match ?body with Return _ => _ | Raise _ => _ end] =>
      destruct body as [token_info|e0]
  end; [discriminate|].
  destruct (is_HTTPError (exn_cls e0)); simpl; intros [= <-]; reflexivity.
Qed.

(** A token that passes validation is not empty. *)
Lemma validate_returns_nonempty (access_token : string) (token_info : pyval) :
  snd (validate_token_with_keycloak rt w access_token) = Return token_info ->
  truthy (PStr access_token) = true.
Proof.
  unfold validate_token_with_keycloak.
  destruct (truthy (PStr access_token)); simpl; [reflexivity | discriminate].
Qed.

(** [extract_user_info] raises nothing but the interpreter's own errors. *)
Lemma extract_raises (token_info : pyval) (e : exn) :
  extract_user_info rt token_info = Raise e ->
  exn_cls e = TypeError \/ exn_cls e = AttributeError.
Proof.
  destruct token_info as [| | | | |l|d];
    try (unfold extract_user_info, extract_username; simpl;
         intros [= <-]; right; reflexivity).
  unfold extract_user_info. rewrite extract_username_dict. simpl.
  destruct (extend_realm_roles rt (PDict d) []) as [realm|e0] eqn:E; simpl.
  - rewrite extend_direct_roles_dict, extract_groups_dict. discriminate.
  - intros [= <-]. left. now apply extend_realm_roles_raises in E.
Qed.

(** C9. When validation and extraction succeed and the backend call raises
    a [BackendServiceError], the envelope is the [backend_service_failed] one
    and its [user] is the extracted identity; every [backend_service_failed]
    envelope arises that way; and when validation fails the envelope is the
    [token_validation_failed] one, which has no [user] key at all. *)
Theorem C9_user_in_failure_envelopes (access_token backend_url endpoint : string) :
  (forall token_info user_info e,
      snd (validate_token_with_keycloak rt w access_token) = Return token_info ->
      extract_user_info rt token_info = Return user_info ->
      snd (call_service rt w (BackendServiceClient_init backend_url default_timeout)
                        access_token endpoint "GET" no_kwargs) = Raise e ->
      exn_cls e = BackendServiceError ->
      snd (query_backend_service rt w access_token backend_url endpoint)
      = Return (backend_failed_envelope (exn_msg e) user_info)
      /\ field "user" (backend_failed_envelope (exn_msg e) user_info)
         = Some user_info)
  /\ (forall env,
        snd (query_backend_service rt w access_token backend_url endpoint)
        = Return env ->
        field "error" env = Some (PStr "backend_service_failed") ->
        exists token_info user_info,
          snd (validate_token_with_keycloak rt w access_token) = Return token_info
          /\ extract_user_info rt token_info = Return user_info
          /\ field "user" env = Some user_info)
  /\ (forall e,
        snd (validate_token_with_keycloak rt w access_token) = Raise e ->
        snd (query_backend_service rt w access_token backend_url endpoint)
        = Return (error_envelope "token_validation_failed" (exn_msg e))
        /\ field "user" (error_envelope "token_validation_failed" (exn_msg e))
           = None).
Proof.
  split; [|split].
  - intros token_info user_info e Hv He Hc Hcls.
    split; [|reflexivity].
    unfold query_backend_service, query_try.
    destruct (validate_token_with_keycloak rt w access_token) as [t1 v].
    simpl in Hv. subst v. rewrite He.
    destruct (call_service rt w (BackendServiceClient_init backend_url default_timeout)
                           access_token endpoint "GET" no_kwargs) as [t2 c].
    simpl in Hc. subst c. simpl. rewrite Hcls. reflexivity.
  - intros env. unfold query_backend_service, query_try.
    destruct (validate_token_with_keycloak rt w access_token)
      as [t1 [token_info|e]] eqn:Ev.
    2:{ assert (Hcls : exn_cls e = TokenValidationError)
          by (apply (validate_raises access_token); now rewrite Ev).
        simpl. rewrite Hcls. simpl. intros [= <-]. discriminate. }
    destruct (extract_user_info rt token_info) as [user_info|e] eqn:Ee.
    2:{ simpl. destruct (extract_raises _ _ Ee) as [Hcls | Hcls];
          rewrite Hcls; simpl; intros [= <-]; discriminate. }
    destruct (call_service rt w (BackendServiceClient_init backend_url default_timeout)
                           access_token endpoint "GET" no_kwargs)
      as [t2 [backend_response|e]].
    + destruct (py_getitem rt user_info "username") as [username|e]; simpl.
      * intros [= <-]. discriminate.
      * destruct e as [[] m]; simpl; intros [= <-]; try discriminate.
        intros _. exists token_info, user_info. auto.
    + destruct e as [[] m]; simpl; intros [= <-]; try discriminate.
      intros _. exists token_info, user_info. auto.
  - intros e Hv. split; [|reflexivity].
    pose proof (validate_raises access_token e Hv) as Hcls.
    unfold query_backend_service, query_try.
    destruct (validate_token_with_keycloak rt w access_token) as [t1 v].
    simpl in Hv. subst v. simpl. rewrite Hcls. reflexivity.
Qed.

(** C10. With an empty token [query_backend_service] issues no request and
    returns the [token_validation_failed] envelope with the validator's
    message, not a [backend_service_failed] one; and a token that passed
    validation is not empty, so that the backend call which follows never
    takes the client's own missing-token branch. *)
Theorem C10_empty_token_is_validation_failure (backend_url endpoint : string) :
  query_backend_service rt w "" backend_url endpoint
  = ([], Return (error_envelope "token_validation_failed" "Access token is required"))
  /\ field "error" (error_envelope "token_validation_failed" "Access token is required")
     <> Some (PStr "backend_service_failed")
  /\ (forall access_token token_info,
        snd (validate_token_with_keycloak rt w access_token) = Return token_info ->
        access_token <> ""
        /\ call_service rt w (BackendServiceClient_init backend_url default_timeout)
                        access_token endpoint "GET" no_kwargs
           <> ([], Raise (mkExn BackendServiceError "Access token is required"))).
Proof.
  split; [reflexivity|]. split; [discriminate|].
  intros access_token token_info Hv.
  apply validate_returns_nonempty in Hv.
  split.
  - intros ->. discriminate.
  - unfold call_service. rewrite Hv. simpl. discriminate.
Qed.

End Orchestrator.

Lemma C9_user_in_failure_envelopes_witness :
  snd (query_backend_service sample_runtime world_backend_401 "token" "http://x/" "/y")
  = Return (backend_failed_envelope auth_failed_msg alice_identity)
  /\ (exists token_info user_info,
        snd (validate_token_with_keycloak sample_runtime world_backend_401 "token")
        = Return token_info
        /\ extract_user_info sample_runtime token_info = Return user_info
        /\ field "user" (backend_failed_envelope auth_failed_msg alice_identity)
           = Some user_info)
  /\ snd (query_backend_service sample_runtime world_inactive "token" "http://x/" "/y")
     = Return (error_envelope "token_validation_failed" (exn_msg inactive_error)).
Proof.
  split; [|split].
  - exact (proj1 (proj1 (C9_user_in_failure_envelopes
                           sample_runtime world_backend_401 "token" "http://x/" "/y")
                        (PDict alice) alice_identity
                        (mkExn BackendServiceError auth_failed_msg)
                        eq_refl eq_refl eq_refl eq_refl)).
  - exact (proj1 (proj2 (C9_user_in_failure_envelopes
                           sample_runtime world_backend_401 "token" "http://x/" "/y"))
                 (backend_failed_envelope auth_failed_msg alice_identity)
                 eq_refl eq_refl).
  - exact (proj1 (proj2 (proj2 (C9_user_in_failure_envelopes
                                  sample_runtime world_inactive "token" "http://x/" "/y"))
                        inactive_error eq_refl)).
Defined.

Lemma C10_empty_token_is_validation_failure_witness :
  "token" <> ""
  /\ call_service sample_runtime world_ok
                  (BackendServiceClient_init "http://x/" default_timeout)
                  "token" "/y" "GET" no_kwargs
     <> ([], Raise (mkExn BackendServiceError "Access token is required")).
Proof.
  exact (proj2 (proj2 (C10_empty_token_is_validation_failure
                         sample_runtime world_ok "http://x/" "/y"))
               "token" (PDict alice) eq_refl).
Defined.

(* ================================================================= *)
(** ** End-to-end scenarios *)

(** Valid token for [alice], backend answering 200 with a JSON body: one
    introspection request, one [GET] with the bearer token, and the success
    envelope. *)
Example scenario_success :
  query_backend_service sample_runtime world_ok "token" "http://x/" "/y"
  = ([NetPost (PStr "http://keycloak/introspect")
              [("token", PStr "token"); ("client_id", PStr "mcp");
               ("client_secret", PStr "secret")]
              introspection_headers;
      NetRequest "GET" "http://x/y" [("Authorization", PStr "Bearer token")] []
                 default_timeout],
     Return (PDict [("status", PStr "success");
                    ("user", alice_identity);
                    ("backend_response", PDict [("id", PInt 1)]);
                    ("message", PStr "Successfully called backend service as alice")])).
Proof. reflexivity. Qed.

(** The introspection request times out: the [token_validation_failed]
    envelope, and no request to the backend. *)
Example scenario_introspection_timeout :
  query_backend_service
    sample_runtime
    (sample_world (Raise (mkExn HttpxTimeoutException "timed out"))
                  (Return (sample_response 200 "unused" not_json)))
    "token" "http://x/" "/y"
  = ([NetPost (PStr "http://keycloak/introspect")
              [("token", PStr "token"); ("client_id", PStr "mcp");
               ("client_secret", PStr "secret")]
              introspection_headers],
     Return (error_envelope "token_validation_failed"
                            "Failed to validate token: timed out")).
Proof. reflexivity. Qed.

(** A valid token whose introspection result has a null [realm_access]: the
    [TypeError] of [extract_user_info] surfaces as an [unexpected_error]
    envelope, before any request to the backend. *)
Example scenario_null_realm_access :
  snd (query_backend_service
         sample_runtime
         (sample_world
            (Return (sample_response
                       200 "null realm"
                       (Return (PDict [("active", PBool true);
                                       ("realm_access", PNone)]))))
            (Return (sample_response 200 "unused" not_json)))
         "token" "http://x/" "/y")
  = Return (error_envelope "unexpected_error" "type error").
Proof. reflexivity. Qed.

(* ================================================================= *)
(** ** More on [validate_token_with_keycloak] *)

Section Validator.

Variable rt : runtime.
Variable w : world.

Ltac enter_validate Htoken Hconfigured :=
  unfold validate_token_with_keycloak;
  match goal with
  | |- context [truthy (PStr ?t)] =>
      let Et := fresh "Et" in
      destruct (truthy (PStr t)) eqn:Et;
      [| apply truthy_str in Et; contradiction]
  end;
  simpl; rewrite Hconfigured; simpl.

(** Every failure of the validator is a [TokenValidationError], and its
    message is one of four: the two fixed ones raised before the request, or
    the text of the underlying exception under the prefix of the [except]
    clause that caught it. *)
Theorem validate_failure_kinds (access_token : string) (e : exn)
  (Hraise : snd (validate_token_with_keycloak rt w access_token) = Raise e) :
  exn_cls e = TokenValidationError
  /\ (exn_msg e = "Access token is required"
      \/ exn_msg e = "SSO_INTROSPECTION_URL not configured"
      \/ (exists m, exn_msg e = "Failed to validate token: " ++ m)
      \/ (exists m, exn_msg e = "Token validation error: " ++ m)).
Proof.
  revert Hraise. unfold validate_token_with_keycloak.
  destruct (truthy (PStr access_token)); simpl;
    [|intros [= <-]; simpl; auto].
  destruct (truthy (SSO_INTROSPECTION_URL w)); simpl;
    [|intros [= <-]; simpl; auto].
  match goal with
  | |- context [match ?body with Return _ => _ | Raise _ => _ end] =>
      destruct body as [token_info|e0]
  end; [discriminate|].
  destruct (is_HTTPError (exn_cls e0)); simpl; intros [= <-]; simpl; eauto 6.
Qed.

(** With a token but no introspection URL in the settings (unset or empty),
    validation fails with the configuration message before any request, and
    the orchestrator reports it as [token_validation_failed], again without
    any request. *)
Theorem validate_unconfigured (access_token backend_url endpoint : string)
  (Htoken : access_token <> "")
  (Hunset : truthy (SSO_INTROSPECTION_URL w) = false) :
  validate_token_with_keycloak rt w access_token
  = ([], Raise (mkExn TokenValidationError "SSO_INTROSPECTION_URL not configured"))
  /\ query_backend_service rt w access_token backend_url endpoint
     = ([], Return (error_envelope "token_validation_failed"
                                   "SSO_INTROSPECTION_URL not configured")).
Proof.
  assert (Hv : validate_token_with_keycloak rt w access_token
               = ([], Raise (mkExn TokenValidationError
                                   "SSO_INTROSPECTION_URL not configured"))).
  { unfold validate_token_with_keycloak.
    destruct (truthy (PStr access_token)) eqn:Et;
      [| apply truthy_str in Et; contradiction].
    simpl. rewrite Hunset. reflexivity. }
  split; [exact Hv|].
  unfold query_backend_service, query_try. rewrite Hv. reflexivity.
Qed.

(** On a 2xx answer whose body decodes to a mapping, the validator issues
    the one introspection request and decides by the truth value of
    [active]: when it is true-ish the decoded body is returned unchanged,
    otherwise (false, null, zero, empty, missing) the inactive-token error is
    raised. *)
Theorem validate_decides_by_active (access_token : string) (r : response) (d : pydict)
  (Htoken : access_token <> "")
  (Hconfigured : truthy (SSO_INTROSPECTION_URL w) = true)
  (Hanswer : introspect w access_token = Return r)
  (Hstatus : raise_for_status r = None)
  (Hbody : json r = Return (PDict d)) :
  validate_token_with_keycloak rt w access_token
  = ([introspection_request w access_token],
     if truthy (dict_get "active" (PBool false) d)
     then Return (PDict d)
     else Raise inactive_error).
Proof.
  enter_validate Htoken Hconfigured.
  rewrite Hanswer. simpl. rewrite Hstatus. simpl. rewrite Hbody. simpl.
  destruct (truthy (dict_get "active" (PBool false) d)); reflexivity.
Qed.

(** The check on [active] is a truth test, not a comparison with [True]:
    any non-empty string under [active], the string ["false"] included,
    lets the token pass. *)
Theorem validate_accepts_string_active
  (access_token : string) (r : response) (d : pydict) (s : string)
  (Htoken : access_token <> "")
  (Hconfigured : truthy (SSO_INTROSPECTION_URL w) = true)
  (Hanswer : introspect w access_token = Return r)
  (Hstatus : raise_for_status r = None)
  (Hbody : json r = Return (PDict d))
  (Hactive : dict_find "active" d = Some (PStr s))
  (Hnonempty : s <> "") :
  snd (validate_token_with_keycloak rt w access_token) = Return (PDict d).
Proof.
  enter_validate Htoken Hconfigured.
  rewrite Hanswer. simpl. rewrite Hstatus. simpl. rewrite Hbody. simpl.
  unfold dict_get. rewrite Hactive. simpl.
  destruct (String.eqb_spec s ""); [contradiction | reflexivity].
Qed.

(** Whatever the validator returns is a mapping whose [active] is
    true-ish, obtained with exactly one introspection request. *)
Theorem validate_returns_active_mapping (access_token : string) (token_info : pyval)
  (Hreturn : snd (validate_token_with_keycloak rt w access_token) = Return token_info) :
  (exists d, token_info = PDict d
             /\ truthy (dict_get "active" (PBool false) d) = true)
  /\ fst (validate_token_with_keycloak rt w access_token)
     = [introspection_request w access_token].
Proof.
  revert Hreturn. unfold validate_token_with_keycloak.
  destruct (truthy (PStr access_token)); simpl; [|discriminate].
  destruct (truthy (SSO_INTROSPECTION_URL w)); simpl; [|discriminate].
  destruct (introspect w access_token) as [r|e0]; simpl.
  2:{ destruct (is_HTTPError (exn_cls e0)); discriminate. }
  destruct (raise_for_status r); simpl; [discriminate|].
  destruct (json r) as [body|e0]; simpl.
  2:{ destruct (is_HTTPError (exn_cls e0)); discriminate. }
  destruct body; simpl; try discriminate.
  destruct (truthy (dict_get "active" (PBool false) d)) eqn:Ea; simpl;
    [|discriminate].
  intros [= <-]. split; [eauto | reflexivity].
Qed.

(** A transport failure of the introspection exchange (an
    [httpx.HTTPError] from the request, or a status rejected by
    [raise_for_status]) becomes a [TokenValidationError] whose message is
    ["Failed to validate token: "] followed by the text of the failure. *)
Theorem validate_transport_failure (access_token : string)
  (Htoken : access_token <> "")
  (Hconfigured : truthy (SSO_INTROSPECTION_URL w) = true) :
  (forall e,
      introspect w access_token = Raise e ->
      is_HTTPError (exn_cls e) = true ->
      validate_token_with_keycloak rt w access_token
      = ([introspection_request w access_token],
         Raise (mkExn TokenValidationError
                      ("Failed to validate token: " ++ exn_msg e))))
  /\ (forall r m,
         introspect w access_token = Return r ->
         raise_for_status r = Some m ->
         validate_token_with_keycloak rt w access_token
         = ([introspection_request w access_token],
            Raise (mkExn TokenValidationError ("Failed to validate token: " ++ m)))).
Proof.
  split.
  - intros e He Hcls. enter_validate Htoken Hconfigured.
    rewrite He. simpl. rewrite Hcls. reflexivity.
  - intros r m Hr Hm. enter_validate Htoken Hconfigured.
    rewrite Hr. simpl. rewrite Hm. reflexivity.
Qed.

(** A 2xx answer that is not a JSON mapping is rejected as well: when the
    body does not decode, and when it decodes to something without a [get]
    method (a list, a string, a number, null), the error of the decoder or
    of the interpreter comes back under ["Token validation error: "]. *)
Theorem validate_malformed_body (access_token : string) (r : response)
  (Htoken : access_token <> "")
  (Hconfigured : truthy (SSO_INTROSPECTION_URL w) = true)
  (Hanswer : introspect w access_token = Return r)
  (Hstatus : raise_for_status r = None) :
  (forall e,
      json r = Raise e ->
      is_HTTPError (exn_cls e) = false ->
      snd (validate_token_with_keycloak rt w access_token)
      = Raise (mkExn TokenValidationError
                     ("Token validation error: " ++ exn_msg e)))
  /\ (forall v,
         json r = Return v ->
         (forall d, v <> PDict d) ->
         snd (validate_token_with_keycloak rt w access_token)
         = Raise (mkExn TokenValidationError
                        ("Token validation error: "
                           ++ fault_msg rt (NoAttribute v "get")))).
Proof.
  split.
  - intros e He Hcls. enter_validate Htoken Hconfigured.
    rewrite Hanswer. simpl. rewrite Hstatus. simpl. rewrite He. simpl.
    rewrite Hcls. reflexivity.
  - intros v Hv Hnot. enter_validate Htoken Hconfigured.
    rewrite Hanswer. simpl. rewrite Hstatus. simpl. rewrite Hv. simpl.
    destruct v; try reflexivity.
    exfalso. now apply (Hnot d).
Qed.

(** The validator issues at most one request, the introspection request,
    and issues none exactly when the token is empty or the introspection URL
    is not set. *)
Lemma validate_trace (access_token : string) :
  fst (validate_token_with_keycloak rt w access_token)
  = if truthy (PStr access_token) && truthy (SSO_INTROSPECTION_URL w)
    then [introspection_request w access_token]
    else [].
Proof.
  unfold validate_token_with_keycloak.
  destruct (truthy (PStr access_token)); simpl; [|reflexivity].
  destruct (truthy (SSO_INTROSPECTION_URL w)); reflexivity.
Qed.

End Validator.

(* ================================================================= *)
(** ** More on [extract_user_info] *)

Section Extractor.

Variable rt : runtime.

(** The realm block fails exactly on the faulty values of [realm_access],
    and then with a [TypeError]. *)
Lemma extend_realm_roles_cases (d : pydict) (roles : list pyval) :
  match extend_realm_roles rt (PDict d) roles with
  | Return _ => realm_access_faulty d = false
  | Raise e => realm_access_faulty d = true /\ exn_cls e = TypeError
  end.
Proof.
  unfold extend_realm_roles, realm_access_faulty. simpl. unfold dict_has.
  destruct (dict_find "realm_access" d) as [ra|]; simpl; [|reflexivity].
  destruct ra; simpl; auto.
  - destruct (is_substring "roles" s); simpl; auto.
  - destruct (existsb (is_str "roles") l); simpl; auto.
  - unfold dict_has.
    destruct (dict_find "roles" d0) as [v|]; simpl; [|reflexivity].
    destruct v; simpl; auto.
Qed.

(** What a returning [extract_user_info] returns. *)
Lemma extract_return_inv (token_info user : pyval)
  (Hreturn : extract_user_info rt token_info = Return user) :
  exists d realm_items,
    token_info = PDict d
    /\ user = PDict [("username", chain_username d);
                     ("email", dict_get "email" PNone d);
                     ("user_id", dict_get "sub" PNone d);
                     ("roles", PList (realm_items ++ list_claim "roles" d));
                     ("groups", PList (list_claim "groups" d))].
Proof.
  revert Hreturn.
  destruct token_info as [| | | | |l|d];
    try (unfold extract_user_info, extract_username; simpl; discriminate).
  unfold extract_user_info. rewrite extract_username_dict. simpl.
  destruct (extend_realm_roles rt (PDict d) []) as [realm|e]; simpl;
    [|discriminate].
  rewrite extend_direct_roles_dict, extract_groups_dict. simpl.
  intros [= <-]. exists d, realm. auto.
Qed.

(** Whenever [extract_user_info] returns, its argument was a mapping and
    the result has exactly the five keys [username], [email], [user_id],
    [roles], [groups], in this order: [email] and [user_id] are the raw
    [email] and [sub] claims (null when absent), [groups] is a list, and
    [roles] is a list that ends with the top-level [roles] list. *)
Theorem extract_result_shape (token_info user : pyval)
  (Hreturn : extract_user_info rt token_info = Return user) :
  exists d realm_items,
    token_info = PDict d
    /\ user = PDict [("username", chain_username d);
                     ("email", dict_get "email" PNone d);
                     ("user_id", dict_get "sub" PNone d);
                     ("roles", PList (realm_items ++ list_claim "roles" d));
                     ("groups", PList (list_claim "groups" d))].
Proof. exact (extract_return_inv token_info user Hreturn). Qed.

(** On a mapping, [extract_user_info] fails exactly when [realm_access] is
    faulty: a value that is no container (null, a boolean, a number), a
    string or a list in which ["roles"] occurs, or a mapping whose [roles]
    is null, a boolean or a number.  The failure is a [TypeError]. *)
Theorem extract_fails_exactly (d : pydict) :
  match extract_user_info rt (PDict d) with
  | Return _ => realm_access_faulty d = false
  | Raise e => realm_access_faulty d = true /\ exn_cls e = TypeError
  end.
Proof.
  unfold extract_user_info. rewrite extract_username_dict. simpl.
  pose proof (extend_realm_roles_cases d []) as Hrealm.
  destruct (extend_realm_roles rt (PDict d) []) as [realm|e]; simpl.
  - rewrite extend_direct_roles_dict, extract_groups_dict. exact Hrealm.
  - exact Hrealm.
Qed.

(** [chars] cuts a string where a code point begins: the pieces put
    together give the string back, each piece is one byte followed by
    continuation bytes, the first piece begins where the string begins and
    every later piece begins with a byte that is no continuation. *)
Lemma chars_code_points (s : string) :
  fold_right append "" (chars s) = s
  /\ Forall (fun c => one_code_point c = true) (chars s)
  /\ Forall (fun c => continues c = false) (List.tl (chars s))
  /\ match s, chars s with
     | EmptyString, [] => True
     | String a _, String a' _ :: _ => a = a'
     | _, _ => False
     end.
Proof.
  induction s as [|a s (Hcat & Hone & Hstart & Hhead)]; [simpl; auto|].
  cbn [chars].
  destruct (continues s) eqn:Ec.
  - destruct s as [|b s']; [discriminate|].
    destruct (chars (String b s')) as [|c rest]; [contradiction|].
    destruct c as [|b' t]; [contradiction|]. subst b'.
    simpl in Hcat, Hstart, Ec.
    inversion Hone as [|? ? Hc Hrest]; subst. simpl in Hc.
    repeat split.
    + simpl. now rewrite Hcat.
    + constructor; [simpl; now rewrite Ec, Hc | exact Hrest].
    + exact Hstart.
  - repeat split.
    + simpl. now rewrite Hcat.
    + constructor; [reflexivity | exact Hone].
    + simpl. destruct s as [|b s']; [constructor|].
      destruct (chars (String b s')) as [|c rest]; [contradiction|].
      destruct c as [|b' t]; [contradiction|]. subst b'.
      constructor; [exact Ec | exact Hstart].
Qed.

(** The realm roles are whatever iterating [realm_access.roles] yields:
    when [realm_access] is a mapping and its [roles] can be iterated, the
    items come first in the extracted [roles].  A string therefore counts as
    one role per code point (see [chars_code_points]) and a mapping as one
    role per key. *)
Theorem extract_iterates_realm_roles
  (d realm_access : pydict) (v : pyval) (items : list pyval)
  (Hrealm : dict_find "realm_access" d = Some (PDict realm_access))
  (Hroles : dict_find "roles" realm_access = Some v)
  (Hiter : py_iter rt v = Return items) :
  extract_user_info rt (PDict d)
  = Return (PDict [("username", chain_username d);
                   ("email", dict_get "email" PNone d);
                   ("user_id", dict_get "sub" PNone d);
                   ("roles", PList (items ++ list_claim "roles" d));
                   ("groups", PList (list_claim "groups" d))]).
Proof.
  unfold extract_user_info. rewrite extract_username_dict. simpl.
  assert (Hblock : extend_realm_roles rt (PDict d) [] = Return items).
  { unfold extend_realm_roles. simpl. unfold dict_has. rewrite Hrealm. simpl.
    unfold dict_has. rewrite Hroles. simpl. rewrite Hiter. reflexivity. }
  rewrite Hblock. simpl.
  rewrite extend_direct_roles_dict, extract_groups_dict. reflexivity.
Qed.

(** [extract_user_info] reads the seven identity claims and nothing else:
    two introspection results that agree on them give the same outcome,
    whatever [active], [exp] or any other key holds. *)
Theorem extract_reads_identity_claims (d d' : pydict)
  (Hagree : forall k, In k identity_claims -> dict_find k d = dict_find k d') :
  extract_user_info rt (PDict d) = extract_user_info rt (PDict d').
Proof.
  assert (H1 := Hagree "preferred_username" ltac:(simpl; auto)).
  assert (H2 := Hagree "username" ltac:(simpl; auto)).
  assert (H3 := Hagree "email" ltac:(simpl; auto)).
  assert (H4 := Hagree "sub" ltac:(simpl; auto)).
  assert (H5 := Hagree "realm_access" ltac:(simpl; auto 10)).
  assert (H6 := Hagree "roles" ltac:(simpl; auto 10)).
  assert (H7 := Hagree "groups" ltac:(simpl; auto 10)).
  unfold extract_user_info, extract_username, extend_realm_roles,
    extend_direct_roles, extract_groups, py_get, py_contains, py_getitem,
    dict_get, dict_has.
  rewrite H1, H2, H3, H4, H5, H6, H7. reflexivity.
Qed.

End Extractor.

(* ================================================================= *)
(** ** More on [BackendServiceClient] *)

Lemma dict_find_set_same (k : string) (v : pyval) (d : pydict) :
  dict_find k (dict_set k v d) = Some v.
Proof.
  induction d as [|[k' v'] d IH]; simpl.
  - now rewrite String.eqb_refl.
  - destruct (String.eqb_spec k k'); simpl.
    + now rewrite String.eqb_refl.
    + destruct (String.eqb_spec k k'); [contradiction | exact IH].
Qed.

Lemma dict_find_set_other (k k' : string) (v : pyval) (d : pydict) :
  k' <> k -> dict_find k' (dict_set k v d) = dict_find k' d.
Proof.
  intros Hne. induction d as [|[k0 v0] d IH]; simpl.
  - destruct (String.eqb_spec k' k); [contradiction | reflexivity].
  - destruct (String.eqb_spec k k0); simpl.
    + subst k0. destruct (String.eqb_spec k' k); [contradiction | reflexivity].
    + destruct (String.eqb_spec k' k0); [reflexivity | exact IH].
Qed.

Lemma rstrip_repeat (c : ascii) (n : nat) : rstrip c (repeat_char c n) = "".
Proof.
  induction n as [|n IH]; simpl; [reflexivity|].
  now rewrite IH, Ascii.eqb_refl.
Qed.

Lemma rstrip_app_repeat (c : ascii) (s : string) (n : nat) :
  rstrip c (s ++ repeat_char c n) = rstrip c s.
Proof.
  induction s as [|a s IH]; simpl.
  - apply rstrip_repeat.
  - now rewrite IH.
Qed.

Lemma lstrip_repeat_app (c : ascii) (s : string) (n : nat) :
  lstrip c (repeat_char c n ++ s) = lstrip c s.
Proof.
  induction n as [|n IH]; simpl; [reflexivity|].
  now rewrite Ascii.eqb_refl.
Qed.

Lemma rstrip_unchanged (c : ascii) (s : string) :
  ends_with c s = false -> rstrip c s = s.
Proof.
  induction s as [|a s IH]; [reflexivity|].
  destruct s as [|b s'].
  - simpl. intros ->. reflexivity.
  - intros Hend.
    change (rstrip c (String a (String b s')))
      with (match rstrip c (String b s') with
            | EmptyString =>
                if Ascii.eqb a c then EmptyString else String a EmptyString
            | r => String a r
            end).
    rewrite IH; [reflexivity | exact Hend].
Qed.

Lemma lstrip_unchanged (c : ascii) (s : string) :
  starts_with c s = false -> lstrip c s = s.
Proof.
  destruct s as [|a s]; simpl; [reflexivity|].
  intros ->. reflexivity.
Qed.

Section Client.

Variable rt : runtime.
Variable w : world.

(** With a non-empty token [call_service] issues exactly one request: the
    given method on the joined URL, with the remaining keyword arguments and
    the client's timeout.  Its [Authorization] header is the bearer token,
    whatever header of that name the caller passed, and every other header is
    the caller's. *)
Theorem call_service_single_request
  (self : BackendServiceClient) (access_token endpoint method : string) (kw : kwargs)
  (Htoken : access_token <> "") :
  exists headers,
    fst (call_service rt w self access_token endpoint method kw)
    = [NetRequest method (request_url self endpoint) headers (kw_rest kw)
                  (timeout self)]
    /\ dict_find "Authorization" headers = Some (PStr ("Bearer " ++ access_token))
    /\ forall k, k <> "Authorization" ->
                 dict_find k headers
                 = dict_find k (match kw_headers kw with Some h => h | None => [] end).
Proof.
  exists (request_headers access_token kw). split; [|split].
  - unfold call_service.
    destruct (truthy (PStr access_token)) eqn:Et;
      [reflexivity | apply truthy_str in Et; contradiction].
  - apply dict_find_set_same.
  - intros k Hk. now apply dict_find_set_other.
Qed.

(** When the request itself fails, a timeout becomes the backend error
    that names the URL, any other [httpx.RequestError] becomes the backend
    error that carries its text, and every other exception leaves
    [call_service] as it is, unwrapped. *)
Theorem call_service_transport_errors
  (self : BackendServiceClient) (access_token endpoint method : string) (kw : kwargs)
  (e : exn)
  (Htoken : access_token <> "")
  (Hfail : http_request w method (request_url self endpoint)
                        (request_headers access_token kw) (kw_rest kw)
           = Raise e) :
  snd (call_service rt w self access_token endpoint method kw)
  = match exn_cls e with
    | HttpxTimeoutException =>
        Raise (mkExn BackendServiceError
                     ("Backend service timeout: " ++ request_url self endpoint))
    | HttpxRequestError =>
        Raise (mkExn BackendServiceError
                     ("Backend service request failed: " ++ exn_msg e))
    | _ => Raise e
    end.
Proof.
  unfold call_service.
  destruct (truthy (PStr access_token)) eqn:Et;
    [| apply truthy_str in Et; contradiction].
  simpl. rewrite Hfail. simpl.
  destruct (exn_cls e); reflexivity.
Qed.

(** Trailing slashes of the backend URL and leading slashes of the
    endpoint do not matter: [call_backend_with_token] behaves the same with
    and without them. *)
Theorem call_backend_with_token_slashes
  (access_token backend_url endpoint method : string) (kw : kwargs) (n m : nat) :
  call_backend_with_token rt w access_token
                          (backend_url ++ repeat_char slash n)
                          (repeat_char slash m ++ endpoint) method kw
  = call_backend_with_token rt w access_token backend_url endpoint method kw.
Proof.
  unfold call_backend_with_token, call_service, request_url,
    BackendServiceClient_init. simpl.
  now rewrite rstrip_app_repeat, lstrip_repeat_app.
Qed.

End Client.

(** A base URL that does not end with a slash and an endpoint that does not
    start with one are used as they are, slashes inside them included. *)
Theorem request_url_plain (base endpoint : string) (t : Q)
  (Hbase : ends_with slash base = false)
  (Hendpoint : starts_with slash endpoint = false) :
  request_url (BackendServiceClient_init base t) endpoint
  = base ++ "/" ++ endpoint.
Proof.
  unfold request_url, BackendServiceClient_init. simpl.
  now rewrite rstrip_unchanged, lstrip_unchanged.
Qed.

(* ================================================================= *)
(** ** More on [query_backend_service] *)

Section Pipeline.

Variable rt : runtime.
Variable w : world.

Lemma validate_return_trace (access_token : string) (token_info : pyval) :
  snd (validate_token_with_keycloak rt w access_token) = Return token_info ->
  fst (validate_token_with_keycloak rt w access_token)
  = [introspection_request w access_token].
Proof.
  unfold validate_token_with_keycloak.
  destruct (truthy (PStr access_token)); simpl; [|discriminate].
  destruct (truthy (SSO_INTROSPECTION_URL w)); simpl; [reflexivity|discriminate].
Qed.

Lemma call_service_trace (self : BackendServiceClient)
  (access_token endpoint method : string) (kw : kwargs) :
  truthy (PStr access_token) = true ->
  fst (call_service rt w self access_token endpoint method kw)
  = [backend_request self access_token endpoint method kw].
Proof. intros Ht. unfold call_service. rewrite Ht. reflexivity. Qed.

(** The request the orchestrator sends to the backend. *)
Lemma orchestrator_request (access_token backend_url endpoint : string) :
  backend_request (BackendServiceClient_init backend_url default_timeout)
                  access_token endpoint "GET" no_kwargs
  = NetRequest "GET" (rstrip slash backend_url ++ "/" ++ lstrip slash endpoint)
               [("Authorization", PStr ("Bearer " ++ access_token))] []
               default_timeout.
Proof. reflexivity. Qed.

Lemma query_trace_cases (access_token backend_url endpoint : string) :
  let trace := fst (query_backend_service rt w access_token backend_url endpoint) in
  trace = []
  \/ trace = [introspection_request w access_token]
  \/ trace = [introspection_request w access_token;
              NetRequest "GET"
                         (rstrip slash backend_url ++ "/" ++ lstrip slash endpoint)
                         [("Authorization", PStr ("Bearer " ++ access_token))] []
                         default_timeout].
Proof.
  unfold query_backend_service, query_try.
  pose proof (validate_trace rt w access_token) as Ht.
  pose proof (validate_returns_nonempty rt w access_token) as Hne.
  pose proof (validate_return_trace access_token) as Hrt.
  destruct (validate_token_with_keycloak rt w access_token)
    as [t1 [token_info|e]]; simpl in Ht, Hne, Hrt.
  - specialize (Hne token_info eq_refl). specialize (Hrt token_info eq_refl).
    clear Ht. subst t1.
    destruct (extract_user_info rt token_info); [|simpl; auto].
    pose proof (call_service_trace
                  (BackendServiceClient_init backend_url default_timeout)
                  access_token endpoint "GET" no_kwargs Hne) as Hc.
    destruct (call_service rt w _ access_token endpoint "GET" no_kwargs)
      as [t2 [resp|e]]; simpl in Hc; subst t2; simpl; auto.
  - simpl. subst t1.
    match goal with
    | |- context [if ?c then _ else _] => destruct c
    end; auto.
Qed.

(** Whatever happens, the orchestrator issues no request, or the
    introspection request alone, or the introspection request followed by
    one [GET] on the joined URL that carries the same token as bearer and no
    other header.  The backend is never contacted first, nor twice. *)
Theorem query_trace_shape (access_token backend_url endpoint : string) :
  let trace := fst (query_backend_service rt w access_token backend_url endpoint) in
  trace = []
  \/ trace = [introspection_request w access_token]
  \/ trace = [introspection_request w access_token;
              NetRequest "GET"
                         (rstrip slash backend_url ++ "/" ++ lstrip slash endpoint)
                         [("Authorization", PStr ("Bearer " ++ access_token))] []
                         default_timeout].
Proof. exact (query_trace_cases access_token backend_url endpoint). Qed.

(** The backend is contacted exactly when validation and extraction both
    succeed. *)
Theorem query_calls_backend_iff (access_token backend_url endpoint : string) :
  existsb is_backend_request
          (fst (query_backend_service rt w access_token backend_url endpoint))
  = true
  <-> exists token_info user_info,
      snd (validate_token_with_keycloak rt w access_token) = Return token_info
      /\ extract_user_info rt token_info = Return user_info.
Proof.
  unfold query_backend_service, query_try.
  pose proof (validate_trace rt w access_token) as Ht.
  pose proof (validate_returns_nonempty rt w access_token) as Hne.
  destruct (validate_token_with_keycloak rt w access_token)
    as [t1 [token_info|e]] eqn:Ev; simpl in Ht, Hne.
  - specialize (Hne token_info eq_refl). clear Ht.
    destruct (extract_user_info rt token_info) as [user_info|e] eqn:Ee.
    + pose proof (call_service_trace
                    (BackendServiceClient_init backend_url default_timeout)
                    access_token endpoint "GET" no_kwargs Hne) as Hc.
      destruct (call_service rt w _ access_token endpoint "GET" no_kwargs)
        as [t2 [resp|e]]; simpl in Hc; subst t2; simpl;
        rewrite existsb_app; simpl; rewrite orb_true_r;
        (split; [intros _; eauto | reflexivity]).
    + pose proof (validate_return_trace access_token) as Hrt.
      rewrite Ev in Hrt. simpl in Hrt. rewrite (Hrt token_info eq_refl). simpl.
      split; [discriminate|].
      intros (ti & ui & [= <-] & Hui); congruence.
  - simpl. subst t1.
    match goal with
    | |- context [if ?c then _ else _] => destruct c
    end; simpl; (split; [discriminate|]); intros (ti & ui & Hti & _); discriminate.
Qed.

(** When the three steps succeed the result is the success envelope: the
    extracted identity, the backend's answer as it came, and a message that
    ends with [str] of the username (["None"] when there is none); the two
    requests were issued in order. *)
Theorem query_success
  (access_token backend_url endpoint : string) (token_info user_info resp : pyval)
  (Hvalid : snd (validate_token_with_keycloak rt w access_token) = Return token_info)
  (Huser : extract_user_info rt token_info = Return user_info)
  (Hcall : snd (call_service rt w
                             (BackendServiceClient_init backend_url default_timeout)
                             access_token endpoint "GET" no_kwargs)
           = Return resp) :
  exists username,
    field "username" user_info = Some username
    /\ query_backend_service rt w access_token backend_url endpoint
       = ([introspection_request w access_token;
           backend_request (BackendServiceClient_init backend_url default_timeout)
                           access_token endpoint "GET" no_kwargs],
          Return (success_envelope user_info resp (py_str rt username))).
Proof.
  destruct (extract_return_inv rt token_info user_info Huser)
    as (d & realm_items & -> & ->).
  exists (chain_username d). split; [reflexivity|].
  pose proof (validate_return_trace access_token (PDict d) Hvalid) as Ht.
  pose proof (call_service_trace
                (BackendServiceClient_init backend_url default_timeout)
                access_token endpoint "GET" no_kwargs
                (validate_returns_nonempty rt w access_token (PDict d) Hvalid))
    as Hc.
  unfold query_backend_service, query_try.
  destruct (validate_token_with_keycloak rt w access_token) as [t1 v].
  simpl in Hvalid, Ht. subst v t1. rewrite Huser.
  destruct (call_service rt w _ access_token endpoint "GET" no_kwargs) as [t2 c].
  simpl in Hcall, Hc. subst c t2. reflexivity.
Qed.

(** When validation succeeds and extraction raises, the result is the
    [unexpected_error] envelope with the text of the error; the backend is
    not contacted and the envelope has no [user] key. *)
Theorem query_extraction_failure
  (access_token backend_url endpoint : string) (token_info : pyval) (e : exn)
  (Hvalid : snd (validate_token_with_keycloak rt w access_token) = Return token_info)
  (Hfail : extract_user_info rt token_info = Raise e) :
  query_backend_service rt w access_token backend_url endpoint
  = ([introspection_request w access_token],
     Return (error_envelope "unexpected_error" (exn_msg e))).
Proof.
  pose proof (validate_return_trace access_token token_info Hvalid) as Ht.
  unfold query_backend_service, query_try.
  destruct (validate_token_with_keycloak rt w access_token) as [t1 v].
  simpl in Hvalid, Ht. subst v t1. rewrite Hfail. simpl.
  destruct (extract_raises rt _ _ Hfail) as [-> | ->]; reflexivity.
Qed.

(** When the backend call ends with an exception that is neither of the
    two error classes of this program (one that [call_service] let through),
    the result is the [unexpected_error] envelope, which, unlike the
    [backend_service_failed] one, carries no [user] although the identity
    was resolved. *)
Theorem query_backend_unexpected
  (access_token backend_url endpoint : string) (token_info user_info : pyval) (e : exn)
  (Hvalid : snd (validate_token_with_keycloak rt w access_token) = Return token_info)
  (Huser : extract_user_info rt token_info = Return user_info)
  (Hcall : snd (call_service rt w
                             (BackendServiceClient_init backend_url default_timeout)
                             access_token endpoint "GET" no_kwargs)
           = Raise e)
  (Hnot_validation : is_TokenValidationError (exn_cls e) = false)
  (Hnot_backend : is_BackendServiceError (exn_cls e) = false) :
  snd (query_backend_service rt w access_token backend_url endpoint)
  = Return (error_envelope "unexpected_error" (exn_msg e))
  /\ field "user" (error_envelope "unexpected_error" (exn_msg e)) = None.
Proof.
  split; [|reflexivity].
  unfold query_backend_service, query_try.
  destruct (validate_token_with_keycloak rt w access_token) as [t1 v].
  simpl in Hvalid. subst v. rewrite Huser.
  destruct (call_service rt w _ access_token endpoint "GET" no_kwargs) as [t2 c].
  simpl in Hcall. subst c. simpl.
  rewrite Hnot_validation, Hnot_backend. reflexivity.
Qed.

(** C8. Whatever the token, the URL, the endpoint and the answers of the
    network, [query_backend_service] raises nothing and returns an envelope.
    Its [status] is ["success"] exactly when validation, extraction and the
    backend call all return, and then it is the success envelope.  Every
    failure gives the error envelope of its step, with the text of the
    exception as message: [token_validation_failed] when validation raises,
    [unexpected_error] when extraction raises, and, when the backend call
    raises, [backend_service_failed] (with the user) for a
    [BackendServiceError], [token_validation_failed] for a
    [TokenValidationError] and [unexpected_error] for anything else. *)
Theorem C8_always_an_envelope (access_token backend_url endpoint : string) :
  exists env,
    snd (query_backend_service rt w access_token backend_url endpoint) = Return env
    /\ is_envelope env
    /\ (field "status" env = Some (PStr "success")
        <-> exists token_info user_info resp,
            snd (validate_token_with_keycloak rt w access_token) = Return token_info
            /\ extract_user_info rt token_info = Return user_info
            /\ snd (call_service rt w
                                 (BackendServiceClient_init backend_url default_timeout)
                                 access_token endpoint "GET" no_kwargs)
               = Return resp)
    /\ match snd (validate_token_with_keycloak rt w access_token) with
       | Raise e => env = error_envelope "token_validation_failed" (exn_msg e)
       | Return token_info =>
           match extract_user_info rt token_info with
           | Raise e => env = error_envelope "unexpected_error" (exn_msg e)
           | Return user_info =>
               match snd (call_service
                            rt w
                            (BackendServiceClient_init backend_url default_timeout)
                            access_token endpoint "GET" no_kwargs) with
               | Raise e =>
                   env = if is_TokenValidationError (exn_cls e) then
                           error_envelope "token_validation_failed" (exn_msg e)
                         else if is_BackendServiceError (exn_cls e) then
                           backend_failed_envelope (exn_msg e) user_info
                         else error_envelope "unexpected_error" (exn_msg e)
               | Return resp =>
                   exists username,
                     field "username" user_info = Some username
                     /\ env = success_envelope user_info resp (py_str rt username)
               end
           end
       end.
Proof.
  unfold query_backend_service, query_try.
  pose proof (validate_raises rt w access_token) as Hcls.
  destruct (validate_token_with_keycloak rt w access_token)
    as [t1 [token_info|e]]; simpl in Hcls.
  2:{ rewrite (Hcls e eq_refl). simpl. eexists.
      split; [reflexivity|]. split; [|split].
      - right. unfold error_tags. simpl. eauto 10.
      - split; [discriminate|].
        intros (ti & ui & resp & Hti & _). discriminate.
      - reflexivity. }
  clear Hcls. cbn [snd].
  destruct (extract_user_info rt token_info) as [user_info|e] eqn:Ee.
  2:{ destruct (extract_raises rt _ _ Ee) as [Hc | Hc]; rewrite Hc; simpl;
        eexists; (split; [reflexivity|]); (split; [|split]);
        try reflexivity;
        try (right; unfold error_tags; simpl; eauto 10);
        (split; [discriminate|]);
        intros (ti & ui & resp & [= <-] & Hui & _); congruence. }
  destruct (extract_return_inv rt token_info user_info Ee)
    as (d & realm_items & -> & ->).
  destruct (call_service rt w (BackendServiceClient_init backend_url default_timeout)
                         access_token endpoint "GET" no_kwargs)
    as [t2 [resp|e]]; cbn [snd].
  - simpl. eexists. split; [reflexivity|]. split; [|split].
    + left. simpl. eauto 10.
    + split; [intros _; eauto 10 | reflexivity].
    + exists (chain_username d). split; reflexivity.
  - destruct e as [[] m]; simpl; eexists; (split; [reflexivity|]);
      (split; [|split]);
      try reflexivity;
      try (right; unfold error_tags; simpl; eauto 10);
      (split; [discriminate|]);
      intros (ti & ui & resp & _ & _ & Hresp); discriminate.
Qed.

(** A request to [/slack/query] that names only the token runs the
    orchestrator with the default backend: the backend request, if one is
    issued, is a [GET] on the local userinfo URL. *)
Theorem slack_query_backend_defaults (access_token : string) :
  let trace :=
    fst (slack_query_backend rt w (BackendQueryRequest_init access_token None None)) in
  trace = []
  \/ trace = [introspection_request w access_token]
  \/ trace = [introspection_request w access_token;
              NetRequest "GET"
                "http://localhost:8080/realms/master/protocol/openid-connect/userinfo"
                [("Authorization", PStr ("Bearer " ++ access_token))] []
                default_timeout].
Proof.
  exact (query_trace_cases
           access_token "http://localhost:8080"
           "/realms/master/protocol/openid-connect/userinfo").
Qed.

End Pipeline.

(* ================================================================= *)
(** ** [get_tool_info] *)

Section ToolInfo.

Variable rt : runtime.

Lemma available_tools_list :
  py_getitem rt get_available_tools "tools" = Return (PList listed_tools).
Proof. reflexivity. Qed.

Lemma find_tool_listed (tool_name : string) :
  find_tool rt listed_tools tool_name
  = if ("query_backend_service" =? tool_name)%string then
      Return (Some (PDict [("status", PStr "success");
                           ("tool", query_backend_service_tool)]))
    else if ("multiply_numbers" =? tool_name)%string then
      Return (Some (PDict [("status", PStr "success");
                           ("tool", multiply_numbers_tool)]))
    else Return None.
Proof.
  unfold listed_tools. cbn [find_tool].
  change (py_getitem rt query_backend_service_tool "name")
    with (@Return pyval (PStr "query_backend_service")).
  change (py_getitem rt multiply_numbers_tool "name")
    with (@Return pyval (PStr "multiply_numbers")).
  cbn [bind is_str].
  destruct ("query_backend_service" =? tool_name)%string; [reflexivity|].
  destruct ("multiply_numbers" =? tool_name)%string; reflexivity.
Qed.

Lemma get_tool_info_unfold (tool_name : string) :
  get_tool_info rt tool_name
  = found <- find_tool rt listed_tools tool_name ;;
    match found with
    | Some answer => Return answer
    | None =>
        Return (PDict [("status", PStr "error");
                       ("error", PStr "tool_not_found");
                       ("message", PStr ("Tool '" ++ tool_name ++ "' not found"));
                       ("available_tools",
                        PList [PStr "query_backend_service";
                               PStr "multiply_numbers"])])
    end.
Proof.
  unfold get_tool_info. cbv zeta. rewrite available_tools_list.
  cbn [bind py_iter].
  destruct (find_tool rt listed_tools tool_name) as [[answer|]|e]; reflexivity.
Qed.

(** Every tool that [get_available_tools] lists has a name under which
    [get_tool_info] finds it again, and the answer carries the very entry of
    the list. *)
Theorem get_tool_info_finds_listed (tools : list pyval) (tool : pyval)
  (Htools : field "tools" get_available_tools = Some (PList tools))
  (Hlisted : In tool tools) :
  exists name,
    field "name" tool = Some (PStr name)
    /\ get_tool_info rt name
       = Return (PDict [("status", PStr "success"); ("tool", tool)]).
Proof.
  injection Htools as <-.
  destruct Hlisted as [<- | [<- | []]].
  - exists "query_backend_service". split; reflexivity.
  - exists "multiply_numbers". split; reflexivity.
Qed.

(** For every name [get_tool_info] returns, without raising: either the
    success answer with a listed tool of exactly that name, or, when no
    listed tool has that name, the [tool_not_found] answer, whose message
    quotes the name and whose [available_tools] are the names of all listed
    tools in order. *)
Theorem get_tool_info_cases (tool_name : string) :
  (exists tool,
      In tool listed_tools
      /\ field "name" tool = Some (PStr tool_name)
      /\ get_tool_info rt tool_name
         = Return (PDict [("status", PStr "success"); ("tool", tool)]))
  \/ ((forall tool, In tool listed_tools ->
                    field "name" tool <> Some (PStr tool_name))
      /\ get_tool_info rt tool_name
         = Return (PDict [("status", PStr "error");
                          ("error", PStr "tool_not_found");
                          ("message", PStr ("Tool '" ++ tool_name ++ "' not found"));
                          ("available_tools",
                           PList [PStr "query_backend_service";
                                  PStr "multiply_numbers"])])).
Proof.
  rewrite get_tool_info_unfold, find_tool_listed.
  destruct (String.eqb_spec "query_backend_service" tool_name) as [<- | Hq].
  { left. exists query_backend_service_tool. repeat split. simpl. auto. }
  destruct (String.eqb_spec "multiply_numbers" tool_name) as [<- | Hm].
  { left. exists multiply_numbers_tool. repeat split. simpl. auto. }
  right. split; [|reflexivity].
  intros tool [<- | [<- | []]]; simpl; congruence.
Qed.

End ToolInfo.

(* ================================================================= *)
(** ** The hypotheses above, met on the sample worlds *)

Lemma validate_failure_kinds_witness :
  exn_cls inactive_error = TokenValidationError.
Proof.
  exact (proj1 (validate_failure_kinds sample_runtime world_inactive "token"
                                       inactive_error eq_refl)).
Defined.

Lemma validate_unconfigured_witness :
  validate_token_with_keycloak sample_runtime world_unconfigured "token"
  = ([], Raise (mkExn TokenValidationError "SSO_INTROSPECTION_URL not configured")).
Proof.
  exact (proj1 (validate_unconfigured sample_runtime world_unconfigured
                                      "token" "http://x/" "/y"
                                      ltac:(discriminate) eq_refl)).
Defined.

Lemma validate_decides_by_active_witness :
  validate_token_with_keycloak sample_runtime world_ok "token"
  = ([introspection_request world_ok "token"], Return (PDict alice)).
Proof.
  exact (validate_decides_by_active sample_runtime world_ok "token"
                                    active_response alice
                                    ltac:(discriminate) eq_refl eq_refl eq_refl eq_refl).
Defined.

Lemma validate_accepts_string_active_witness :
  snd (validate_token_with_keycloak sample_runtime world_string_active "token")
  = Return (PDict string_active).
Proof.
  exact (validate_accepts_string_active
           sample_runtime world_string_active "token"
           (sample_response 200 "string" (Return (PDict string_active)))
           string_active "false"
           ltac:(discriminate) eq_refl eq_refl eq_refl eq_refl eq_refl
           ltac:(discriminate)).
Defined.

Lemma validate_returns_active_mapping_witness :
  fst (validate_token_with_keycloak sample_runtime world_ok "token")
  = [introspection_request world_ok "token"].
Proof.
  exact (proj2 (validate_returns_active_mapping sample_runtime world_ok "token"
                                                (PDict alice) eq_refl)).
Defined.

Lemma validate_transport_failure_witness :
  validate_token_with_keycloak sample_runtime world_timeout "token"
  = ([introspection_request world_timeout "token"],
     Raise (mkExn TokenValidationError "Failed to validate token: timed out")).
Proof.
  exact (proj1 (validate_transport_failure sample_runtime world_timeout "token"
                                           ltac:(discriminate) eq_refl)
               timed_out eq_refl eq_refl).
Defined.

Lemma validate_malformed_body_witness :
  snd (validate_token_with_keycloak sample_runtime world_not_json "token")
  = Raise (mkExn TokenValidationError "Token validation error: Expecting value").
Proof.
  exact (proj1 (validate_malformed_body
                  sample_runtime world_not_json "token"
                  (sample_response 200 "<html>" not_json)
                  ltac:(discriminate) eq_refl eq_refl eq_refl)
               (mkExn OtherException "Expecting value") eq_refl eq_refl).
Defined.

Lemma extract_result_shape_witness :
  exists d realm_items,
    PDict alice = PDict d
    /\ alice_identity
       = PDict [("username", chain_username d);
                ("email", dict_get "email" PNone d);
                ("user_id", dict_get "sub" PNone d);
                ("roles", PList (realm_items ++ list_claim "roles" d));
                ("groups", PList (list_claim "groups" d))].
Proof.
  exact (extract_result_shape sample_runtime (PDict alice) alice_identity eq_refl).
Defined.

Lemma extract_iterates_realm_roles_witness :
  extract_user_info sample_runtime (PDict string_roles)
  = Return (PDict [("username", PNone); ("email", PNone); ("user_id", PNone);
                   ("roles", PList [PStr "a"; PStr "b"; PStr "user"]);
                   ("groups", PList [])]).
Proof.
  exact (extract_iterates_realm_roles
           sample_runtime string_roles [("roles", PStr "ab")] (PStr "ab")
           [PStr "a"; PStr "b"] eq_refl eq_refl eq_refl).
Defined.

Lemma extract_reads_identity_claims_witness :
  extract_user_info sample_runtime (PDict alice)
  = extract_user_info sample_runtime (PDict (List.tl alice)).
Proof.
  apply (extract_reads_identity_claims sample_runtime alice (List.tl alice)).
  intros k Hk. simpl in Hk.
  repeat (destruct Hk as [<- | Hk]; [reflexivity|]).
  contradiction.
Defined.

Lemma call_service_single_request_witness :
  exists headers,
    fst (call_service sample_runtime world_ok sample_client
                      "token" "/y" "GET" caller_kwargs)
    = [NetRequest "GET" (request_url sample_client "/y") headers
                  (kw_rest caller_kwargs) (timeout sample_client)]
    /\ dict_find "Authorization" headers = Some (PStr ("Bearer " ++ "token"))
    /\ forall k, k <> "Authorization" ->
                 dict_find k headers
                 = dict_find k (match kw_headers caller_kwargs with
                                | Some h => h
                                | None => []
                                end).
Proof.
  exact (call_service_single_request sample_runtime world_ok sample_client
                                     "token" "/y" "GET" caller_kwargs
                                     ltac:(discriminate)).
Defined.

Lemma call_service_transport_errors_witness :
  snd (call_service sample_runtime world_backend_down sample_client
                    "token" "/y" "GET" no_kwargs)
  = Raise (mkExn BackendServiceError "Backend service timeout: http://x/y").
Proof.
  exact (call_service_transport_errors sample_runtime world_backend_down
                                       sample_client "token" "/y" "GET" no_kwargs
                                       timed_out ltac:(discriminate) eq_refl).
Defined.

Lemma request_url_plain_witness :
  request_url (BackendServiceClient_init "http://x/api" default_timeout) "v1/users"
  = "http://x/api/v1/users".
Proof.
  exact (request_url_plain "http://x/api" "v1/users" default_timeout
                           eq_refl eq_refl).
Defined.

Lemma query_success_witness :
  exists username,
    field "username" alice_identity = Some username
    /\ query_backend_service sample_runtime world_ok "token" "http://x/" "/y"
       = ([introspection_request world_ok "token";
           backend_request (BackendServiceClient_init "http://x/" default_timeout)
                           "token" "/y" "GET" no_kwargs],
          Return (success_envelope alice_identity (PDict [("id", PInt 1)])
                                   (py_str sample_runtime username))).
Proof.
  exact (query_success sample_runtime world_ok "token" "http://x/" "/y"
                       (PDict alice) alice_identity (PDict [("id", PInt 1)])
                       eq_refl eq_refl eq_refl).
Defined.

Lemma query_extraction_failure_witness :
  query_backend_service sample_runtime world_null_realm "token" "http://x/" "/y"
  = ([introspection_request world_null_realm "token"],
     Return (error_envelope "unexpected_error" "type error")).
Proof.
  exact (query_extraction_failure
           sample_runtime world_null_realm "token" "http://x/" "/y"
           (PDict null_realm)
           (mkExn TypeError "type error") eq_refl eq_refl).
Defined.

Lemma query_backend_unexpected_witness :
  snd (query_backend_service sample_runtime world_backend_crash
                             "token" "http://x/" "/y")
  = Return (error_envelope "unexpected_error" "unsupported protocol").
Proof.
  exact (proj1 (query_backend_unexpected
                  sample_runtime world_backend_crash "token" "http://x/" "/y"
                  (PDict alice) alice_identity
                  (mkExn OtherException "unsupported protocol")
                  eq_refl eq_refl eq_refl eq_refl eq_refl)).
Defined.

Lemma get_tool_info_finds_listed_witness :
  exists name,
    field "name" multiply_numbers_tool = Some (PStr name)
    /\ get_tool_info sample_runtime name
       = Return (PDict [("status", PStr "success"); ("tool", multiply_numbers_tool)]).
Proof.
  exact (get_tool_info_finds_listed sample_runtime listed_tools
                                    multiply_numbers_tool eq_refl
                                    (or_intror (or_introl eq_refl))).
Defined.

(** A [realm_access.roles] string outside ASCII: two code points, two
    roles. *)
Example scenario_non_ascii_realm_roles :
  extract_user_info sample_runtime
                    (PDict [("realm_access", PDict [("roles", PStr "日本")])])
  = Return (PDict [("username", PNone); ("email", PNone); ("user_id", PNone);
                   ("roles", PList [PStr "日"; PStr "本"]);
                   ("groups", PList [])]).
Proof. reflexivity. Qed.

(** The example of the specification: realm role [admin], direct role
    [user]. *)
Example scenario_role_aggregation :
  extract_user_info
    sample_runtime
    (PDict [("realm_access", PDict [("roles", PList [PStr "admin"])]);
            ("roles", PList [PStr "user"])])
  = Return (PDict [("username", PNone); ("email", PNone); ("user_id", PNone);
                   ("roles", PList [PStr "admin"; PStr "user"]);
                   ("groups", PList [])]).
Proof. reflexivity. Qed.
